(** * dYdX v3 client: the authenticated [Private] module and the [DydxClient] facade

    A shallow embedding of [src/modules/private.ts] and of the client facade
    ([DydxClient]).  JavaScript objects are lists of properties in insertion
    order, the bodies of the asynchronous methods are computations in a
    state-and-exception monad over a [World] that holds the sources of
    [Math.random()] and [new Date()] and the chronological log of every call
    made to an external collaborator (stark signing, API request signing,
    HTTP transport), and a call of an [async] method returns the promise
    that the run of its body settles. *)

From Stdlib Require Import ZArith String Ascii List DecimalString.
From stdpp Require Import base strings gmap.

Local Open Scope string_scope.

(** ** The JavaScript runtime, as far as the client uses it *)

Module Js.

(** Primitive values that occur as properties of request parameters. *)
Inductive JsValue :=
| JsUndefined
| JsNull
| JsBool (b : bool)
| JsNumber (z : Z)
| JsString (s : string).

(** [ToBoolean]: what [!v] and [v || w] test. *)
Definition truthy (v : JsValue) : bool :=
  match v with
  | JsUndefined | JsNull => false
  | JsBool b => b
  | JsNumber z => negb (z =? 0)%Z
  | JsString EmptyString => false
  | JsString (String _ _) => true
  end.

(** An object: its own properties in insertion order.  The order is what
    [JSON.stringify] and the spread [{...o}] follow. *)
Record JsObject := Obj { properties : list (string * JsValue) }.

Fixpoint assoc_lookup (k : string) (l : list (string * JsValue))
    : option JsValue :=
  match l with
  | [] => None
  | (k', v) :: rest => if String.eqb k' k then Some v else assoc_lookup k rest
  end.

(** Defining property [k]: an existing property keeps its place and takes
    the new value, a new one goes last. *)
Fixpoint assoc_set (k : string) (v : JsValue) (l : list (string * JsValue))
    : list (string * JsValue) :=
  match l with
  | [] => [(k, v)]
  | (k', v') :: rest =>
      if String.eqb k' k then (k', v) :: rest
      else (k', v') :: assoc_set k v rest
  end.

(** [o !! k] is the own property [k] of [o], if any; [<[k:=v]> o] is the
    object [{...o, k: v}]; [∅] is [{}]. *)
#[global] Instance JsObject_lookup : Lookup string JsValue JsObject :=
  fun k o => assoc_lookup k (properties o).

#[global] Instance JsObject_insert : Insert string JsValue JsObject :=
  fun k v o => Obj (assoc_set k v (properties o)).

#[global] Instance JsObject_empty : Empty JsObject := Obj [].

(** Property read [o.k]: a missing property reads as [undefined]. *)
Definition get (o : JsObject) (k : string) : JsValue :=
  default JsUndefined (o !! k).

(** [s.slice(start)] for a non-negative [start]. *)
Fixpoint slice_from (start : nat) (s : string) : string :=
  match start, s with
  | O, _ => s
  | S _, EmptyString => EmptyString
  | S n, String _ rest => slice_from n rest
  end.

(** [s.replace(/^0+/, '')]: drop the maximal run of ['0'] at the start. *)
Fixpoint strip_leading_zeros (s : string) : string :=
  match s with
  | String "0"%char rest => strip_leading_zeros rest
  | _ => s
  end.

(** A finite non-negative Number, given the way [Number::toString] looks
    at it: zero, or the shortest decimal digits [d1 ... dk] and the
    exponent [n] with value [0.d1...dk * 10^n]. *)
Inductive Number :=
| Zero
| Dec (ds : list nat) (n : Z).

Definition digit_char (d : nat) : ascii := ascii_of_nat (48 + d).

Fixpoint digits_string (ds : list nat) : string :=
  match ds with
  | [] => EmptyString
  | d :: rest => String (digit_char d) (digits_string rest)
  end.

Fixpoint zeros (k : nat) : string :=
  match k with
  | O => EmptyString
  | S k' => String "0"%char (zeros k')
  end.

Definition nat_string (k : nat) : string :=
  NilZero.string_of_uint (Nat.to_uint k).

(** [Number::toString(x)] in radix 10 (ECMA-262, Number::toString). *)
Definition Number_toString (x : Number) : string :=
  match x with
  | Zero => "0"
  | Dec ds n =>
      let k := Z.of_nat (length ds) in
      if ((k <=? n) && (n <=? 21))%Z then
        digits_string ds ++ zeros (Z.to_nat (n - k))
      else if ((0 <? n) && (n <=? 21))%Z then
        digits_string (take (Z.to_nat n) ds) ++ "." ++
        digits_string (drop (Z.to_nat n) ds)
      else if ((-6 <? n) && (n <=? 0))%Z then
        "0." ++ zeros (Z.to_nat (- n)) ++ digits_string ds
      else
        let e := (n - 1)%Z in
        let sign := if (e <? 0)%Z then "-" else "+" in
        let mantissa :=
          match ds with
          | [] => EmptyString
          | [d] => digits_string [d]
          | d :: rest => digits_string [d] ++ "." ++ digits_string rest
          end in
        mantissa ++ "e" ++ sign ++ nat_string (Z.to_nat (Z.abs e))
  end.

(** Well-formed shortest decimal of a Number in the range of
    [Math.random()], the half-open interval from 0 to 1. *)
Definition unit_range (x : Number) : Prop :=
  match x with
  | Zero => True
  | Dec ds n =>
      (n <= 0)%Z /\ Forall (fun d => d < 10) ds /\
      (exists d rest, ds = d :: rest /\ d <> 0) /\
      (exists front d, ds = (front ++ [d])%list /\ d <> 0)
  end.

(** A JavaScript exception. *)
Inductive Exn := Error (message : string).

(** Outcome of a call that may throw (or of a promise that may reject). *)
Inductive Result (A : Type) :=
| Ok (a : A)
| Throw (e : Exn).
Arguments Ok {A} a.
Arguments Throw {A} e.

End Js.
Import Js.

(** ** Data exchanged with the external collaborators *)

(** [KeyPair] of starkex-lib: a public key and the matching private key. *)
Record KeyPair := mkKeyPair {
  publicKey : string;
  privateKey : string;
}.

(** A key handed to a constructor: [string | KeyPair]. *)
Inductive KeyInput :=
| KeyString (s : string)
| KeyObject (kp : KeyPair).

(** Truthiness of a [string | KeyPair]: an object is always truthy. *)
Definition key_truthy (k : KeyInput) : bool :=
  match k with
  | KeyString s => truthy (JsString s)
  | KeyObject _ => true
  end.

(** [RequestMethod] of [lib/axios]. *)
Inductive RequestMethod := GET | POST | PUT | DELETE.

(** [ApiMethod] of starkex-lib. *)
Inductive ApiMethod := ApiGET | ApiPOST | ApiPUT | ApiDELETE.

Definition METHOD_ENUM_MAP (m : RequestMethod) : ApiMethod :=
  match m with
  | DELETE => ApiDELETE
  | GET => ApiGET
  | POST => ApiPOST
  | PUT => ApiPUT
  end.

(** The value handed to [ApiRequest.fromInternal]. *)
Record ApiRequest := mkApiRequest {
  body : string;
  requestPath : string;
  method : ApiMethod;
  apiPublicKey : string;
  expiresAt : string;
}.

(** The argument of [axiosRequest]. *)
Record AxiosRequestConfig := mkAxiosRequestConfig {
  url : string;
  axiosMethod : RequestMethod;
  data : option JsObject;
  headers : gmap string string;
}.

(** Parsed response body. *)
Definition Data : Type := JsObject.

(** One call to an external collaborator. *)
Inductive Event :=
| StarkOrderSign (orderToSign : JsObject) (keyPair : KeyPair)
| StarkWithdrawalSign (withdrawalToSign : JsObject) (keyPair : KeyPair)
| ApiRequestSign (request : ApiRequest) (apiPrivateKey : string)
| Axios (config : AxiosRequestConfig).

Definition is_stark_sign (e : Event) : bool :=
  match e with
  | StarkOrderSign _ _ | StarkWithdrawalSign _ _ => true
  | _ => false
  end.

(** The imported functions of starkex-lib, [helpers/request-helpers] and
    [lib/axios].  Signing and transport may throw or reject. *)
Class Collaborators := {
  (** [asSimpleKeyPair(asEcKeyPair(key))] *)
  asKeyPair : KeyInput -> Result KeyPair;
  generateQueryPath : string -> JsObject -> string;
  JSON_stringify : JsObject -> string;
  (** [StarkExOrder.fromInternal(order).sign(keyPair)] *)
  StarkExOrder_sign : JsObject -> KeyPair -> Result string;
  (** [StarkExWithdrawal.fromInternal(withdrawal).sign(keyPair)] *)
  StarkExWithdrawal_sign : JsObject -> KeyPair -> Result string;
  (** [ApiRequest.fromInternal(request).sign(privateKey)] *)
  ApiRequest_sign : ApiRequest -> string -> Result string;
  (** [getAccountId({ address })] of [lib/db] *)
  getAccountId : string -> string;
  axiosRequest : AxiosRequestConfig -> Result Data;
}.

(** ** The world and the monad of asynchronous methods *)

Record World := mkWorld {
  (** the successive results of [Math.random()] *)
  random_source : nat -> Number;
  random_calls : nat;
  (** the successive results of [new Date().toISOString()] *)
  clock_source : nat -> string;
  clock_reads : nat;
  (** calls to the collaborators, oldest first *)
  trace : list Event;
}.

Definition M (A : Type) : Type := World -> Result A * World.

Definition ret {A} (a : A) : M A := fun w => (Ok a, w).

Definition bind {A B} (m : M A) (k : A -> M B) : M B :=
  fun w =>
    match m w with
    | (Ok a, w') => k a w'
    | (Throw e, w') => (Throw e, w')
    end.

Definition throw {A} (e : Exn) : M A := fun w => (Throw e, w).

Notation "'let*' x ':=' m 'in' k" := (bind m (fun x => k))
  (at level 10, x name, m at level 100, k at level 200).

Definition log (e : Event) (w : World) : World :=
  {| random_source := random_source w;
     random_calls := random_calls w;
     clock_source := clock_source w;
     clock_reads := clock_reads w;
     trace := (trace w ++ [e])%list |}.

(** Call a collaborator: record the call, then return or throw its outcome. *)
Definition call {A} (e : Event) (r : Result A) : M A :=
  fun w => (r, log e w).

(** [Math.random()] *)
Definition Math_random : M Number :=
  fun w =>
    (Ok (random_source w (random_calls w)),
     {| random_source := random_source w;
        random_calls := S (random_calls w);
        clock_source := clock_source w;
        clock_reads := clock_reads w;
        trace := trace w |}).

(** [new Date().toISOString()] *)
Definition Date_now_toISOString : M string :=
  fun w =>
    (Ok (clock_source w (clock_reads w)),
     {| random_source := random_source w;
        random_calls := random_calls w;
        clock_source := clock_source w;
        clock_reads := S (clock_reads w);
        trace := trace w |}).

(** The world after one read of the clock. *)
Definition after_clock (w : World) : World := snd (Date_now_toISOString w).

(** The events a computation adds to the trace of [w]. *)
Definition emitted {A} (m : M A) (w : World) : list Event :=
  drop (length (trace w)) (trace (snd (m w))).

(** ** [modules/private.ts]: class [Private] *)

Module Private.

Record t := mk {
  host : string;
  apiKeyPair : KeyPair;
  starkKeyPair : option KeyPair;
}.

Section Methods.
Context `{Collaborators}.

(** [constructor(host, apiPrivateKey, starkPrivateKey?)] *)
Definition new (host : string) (apiPrivateKey : KeyInput)
    (starkPrivateKey : option KeyInput) : Result t :=
  match asKeyPair apiPrivateKey with
  | Throw e => Throw e
  | Ok api =>
      match starkPrivateKey with
      | Some k =>
          if key_truthy k then
            match asKeyPair k with
            | Throw e => Throw e
            | Ok stark => Ok (mk host api (Some stark))
            end
          else Ok (mk host api None)
      | None => Ok (mk host api None)
      end
  end.

(** *** Request generation helper *)

(** The envelope [sign] builds for [ApiRequest.fromInternal]. *)
Definition envelope (this : t) (requestPath : string)
    (method : RequestMethod) (timestamp : string)
    (data : option JsObject) : ApiRequest :=
  {| body := match data with
             | Some d => JSON_stringify d
             | None => ""
             end;
     requestPath := requestPath;
     method := METHOD_ENUM_MAP method;
     apiPublicKey := publicKey (apiKeyPair this);
     expiresAt := timestamp |}.

Definition sign (this : t) (requestPath : string)
    (method : RequestMethod) (timestamp : string)
    (data : option JsObject) : M string :=
  let request := envelope this requestPath method timestamp data in
  let key := privateKey (apiKeyPair this) in
  call (ApiRequestSign request key) (ApiRequest_sign request key).

(** *** Request helpers *)

(** The argument [request] builds for [axiosRequest]. *)
Definition axiosConfig (this : t) (method : RequestMethod)
    (requestPath : string) (data : option JsObject)
    (timestamp signature : string) : AxiosRequestConfig :=
  {| url := host this ++ requestPath;
     axiosMethod := method;
     data := data;
     headers :=
       {[ "DYDX-SIGNATURE" := signature;
          "DYDX-API-KEY" := publicKey (apiKeyPair this);
          "DYDX-TIMESTAMP" := timestamp ]} |}.

Definition request (this : t) (method : RequestMethod)
    (endpoint : string) (data : option JsObject) : M Data :=
  let requestPath := "/v3/" ++ endpoint in
  let* timestamp := Date_now_toISOString in
  let* signature := sign this requestPath method timestamp data in
  let config :=
    axiosConfig this method requestPath data timestamp signature in
  call (Axios config) (axiosRequest config).

Definition get (this : t) (endpoint : string)
    (params : JsObject) : M Data :=
  request this GET (generateQueryPath endpoint params) None.

Definition post (this : t) (endpoint : string)
    (data : JsObject) : M Data :=
  request this POST endpoint (Some data).

Definition put (this : t) (endpoint : string)
    (data : JsObject) : M Data :=
  request this PUT endpoint (Some data).

Definition delete (this : t) (endpoint : string)
    (params : JsObject) : M Data :=
  request this DELETE (generateQueryPath endpoint params) None.

(** *** Requests *)

Definition getRegistration (this : t) : M Data :=
  get this "registration" ∅.

Definition getUser (this : t) : M Data :=
  get this "users" ∅.

Definition updateUser (this : t) (email username : string)
    (userData : JsObject) : M Data :=
  put this "users"
    (Obj [("email", JsString email);
          ("username", JsString username);
          ("userData", JsString (JSON_stringify userData))]).

Definition createAccount (this : t) (starkKey : string) : M Data :=
  post this "accounts" (Obj [("starkKey", JsString starkKey)]).

Definition getAccount (this : t) (ethereumAddress : string) : M Data :=
  get this ("accounts/" ++ getAccountId ethereumAddress) ∅.

Definition getAccounts (this : t) : M Data :=
  get this "accounts" ∅.

Definition getPositions (this : t) (params : JsObject)
    : M Data :=
  get this "positions" params.

Definition getOrders (this : t) (params : JsObject) : M Data :=
  get this "orders" params.

Definition getOrderById (this : t) (orderId : string) : M Data :=
  get this ("orders/" ++ orderId) ∅.

Definition getOrderByClientId (this : t) (clientId : string) : M Data :=
  get this ("orders/client/" ++ clientId) ∅.

(** [Math.random().toString().slice(2).replace(/^0+/, '')], applied to
    the result [x] of [Math.random()]. *)
Definition randomClientId (x : Number) : string :=
  strip_leading_zeros (slice_from 2 (Number_toString x)).

(** [params.clientId || Math.random()...]: the right operand is only
    evaluated when the left one is falsy. *)
Definition resolveClientId (params : JsObject) : M JsValue :=
  if truthy (Js.get params "clientId") then
    ret (Js.get params "clientId")
  else
    let* x := Math_random in
    ret (JsString (randomClientId x)).

(** The value bound to [clientId] by a call that starts in world [w],
    and the world once it is bound. *)
Definition clientIdIn (params : JsObject) (w : World)
    : JsValue :=
  match fst (resolveClientId params w) with
  | Ok clientId => clientId
  | Throw _ => JsUndefined
  end.

Definition after_clientId (params : JsObject) (w : World)
    : World :=
  snd (resolveClientId params w).

(** [{ ...params, clientId, signature }], the value both [createOrder]
    and [createWithdrawal] post. *)
Definition signedPayload (params : JsObject)
    (clientId signature : JsValue) : JsObject :=
  <["signature" := signature]> (<["clientId" := clientId]> params).

Definition orderToSign (params : JsObject)
    (clientId : JsValue) (positionId : string) (stark : KeyPair)
    : JsObject :=
  <["expiresAt" := Js.get params "expiration"]>
    (<["starkKey" := JsString (publicKey stark)]>
      (<["positionId" := JsString positionId]>
        (<["clientId" := clientId]> params))).

Definition createOrder (this : t) (params : JsObject)
    (positionId : string) : M Data :=
  let* clientId := resolveClientId params in
  let* signature :=
    if truthy (Js.get params "signature") then
      ret (Js.get params "signature")
    else
      match starkKeyPair this with
      | None =>
          throw (Error "Order is not signed and client was not initialized with starkPrivateKey")
      | Some stark =>
          let o := orderToSign params clientId positionId stark in
          let* s := call (StarkOrderSign o stark)
                         (StarkExOrder_sign o stark) in
          ret (JsString s)
      end in
  let order := signedPayload params clientId signature in
  post this "orders" order.

Definition cancelOrder (this : t) (orderId : string) : M Data :=
  delete this ("orders/" ++ orderId) ∅.

Definition cancelAllOrders (this : t) (market : option string) : M Data :=
  let params : JsObject :=
    match market with
    | Some m =>
        if truthy (JsString m) then Obj [("market", JsString m)] else ∅
    | None => ∅
    end in
  delete this "orders" params.

Definition getFills (this : t) (params : JsObject) : M Data :=
  get this "fills" params.

Definition getTransfers (this : t) (params : JsObject)
    : M Data :=
  get this "transfers" params.

Definition withdrawalToSign (params : JsObject)
    (clientId : JsValue) (positionId : string) (stark : KeyPair)
    : JsObject :=
  <["positionId" := JsString positionId]>
    (<["expiresAt" := Js.get params "expiration"]>
      (<["debitAmount" := Js.get params "amount"]>
        (<["starkKey" := JsString (publicKey stark)]>
          (<["clientId" := clientId]> params)))).

Definition createWithdrawal (this : t) (params : JsObject)
    (positionId : string) : M Data :=
  let* clientId := resolveClientId params in
  let* signature :=
    if truthy (Js.get params "signature") then
      ret (Js.get params "signature")
    else
      match starkKeyPair this with
      | None =>
          throw (Error "Withdrawal is not signed and client was not initialized with starkPrivateKey")
      | Some stark =>
          let wd := withdrawalToSign params clientId positionId stark in
          let* s := call (StarkWithdrawalSign wd stark)
                         (StarkExWithdrawal_sign wd stark) in
          ret (JsString s)
      end in
  let withdrawal := signedPayload params clientId signature in
  post this "withdrawals" withdrawal.

Definition createDeposit (this : t) (params : JsObject)
    : M Data :=
  post this "deposits" params.

Definition getFundingPayments (this : t) (params : JsObject)
    : M Data :=
  get this "funding" params.

End Methods.

End Private.

(** ** Calls of [async] methods *)

(** The promise an [async] method returns, as it is settled by the run of
    the body. *)
Inductive Promise (A : Type) :=
| Fulfilled (a : A)
| Rejected (e : Exn).
Arguments Fulfilled {A} a.
Arguments Rejected {A} e.

(** How a call expression completes: it returns a value to the caller, or
    it throws, synchronously, at the caller. *)
Inductive Completion (A : Type) :=
| Returns (a : A)
| ThrowsSynchronously (e : Exn).
Arguments Returns {A} a.
Arguments ThrowsSynchronously {A} e.

(** Calling a method declared [async] with the given body: the call always
    returns a promise; what the body returns fulfils it, what the body
    throws, before or after an [await], rejects it. *)
Definition async {A} (body : M A) : World -> Completion (Promise A) * World :=
  fun w =>
    match body w with
    | (Ok a, w') => (Returns (Fulfilled a), w')
    | (Throw e, w') => (Returns (Rejected e), w')
    end.

(** The call expressions [this.createOrder(params, positionId)] and
    [this.createWithdrawal(params, positionId)]: both methods are declared
    [async], and [Private.createOrder] and [Private.createWithdrawal] are
    the runs of their bodies. *)
Module Async.

Definition createOrder `{Collaborators} (this : Private.t)
    (params : JsObject) (positionId : string)
    : World -> Completion (Promise Data) * World :=
  async (Private.createOrder this params positionId).

Definition createWithdrawal `{Collaborators} (this : Private.t)
    (params : JsObject) (positionId : string)
    : World -> Completion (Promise Data) * World :=
  async (Private.createWithdrawal this params positionId).

End Async.

(** ** The client facade: class [DydxClient] *)

Module DydxClient.

(** A chain-connectivity provider ([Provider] of [types]). *)
Definition Provider : Type := string.

(** [new Web3(provider)]: an object, whether or not a provider is given. *)
Record Web3 := mkWeb3 { provider : option Provider }.

(** The modules of [modules/public], [modules/keys], [modules/onboarding]
    and [modules/eth], reduced to what their constructors receive. *)
Record Public := mkPublic { public_host : string }.
Record Keys := mkKeys { keys_host : string; keys_web3 : Web3 }.
Record Onboarding := mkOnboarding {
  onboarding_host : string;
  onboarding_web3 : Web3;
}.
Record Eth := mkEth { eth_web3 : Web3 }.

(** Modelled from the spec: the stubs [privateNotSupported],
    [keysNotSupported], [onboardingNotSupported] and [ethNotSupported] are
    imported from files that are absent.  A getter yields either the module
    or the stub, and the stub is an object every one of whose operations
    fails immediately with a "not supported" error. *)
Inductive Gated (A : Type) :=
| Module_ (m : A)
| NotSupported.
Arguments Module_ {A} m.
Arguments NotSupported {A}.

(** Modelled from the spec: invoking an operation on what a getter
    returned; on the stub it fails with the "not supported" error. *)
Definition invoke {A B} (g : Gated A) (operation : A -> M B) : M B :=
  match g with
  | Module_ m => operation m
  | NotSupported => throw (Error "not supported")
  end.

Record ClientOptions := mkClientOptions {
  opt_apiTimeout : option Z;
  opt_apiPrivateKey : option KeyInput;
  opt_starkPrivateKey : option KeyInput;
  opt_web3Provider : option Provider;
}.

Record t := mk {
  host : string;
  apiTimeout : option Z;
  apiPrivateKey : option KeyInput;
  starkPrivateKey : option KeyInput;
  web3 : option Web3;
  _public : Public;
  _private : option Private.t;
  _keys : option Keys;
  _onboarding : option Onboarding;
  _eth : option Eth;
}.

(** [constructor(host, options = {})] *)
Definition new (host : string) (options : ClientOptions) : t :=
  {| host := host;
     apiTimeout := opt_apiTimeout options;
     apiPrivateKey := opt_apiPrivateKey options;
     starkPrivateKey := opt_starkPrivateKey options;
     web3 := Some (mkWeb3 (opt_web3Provider options));
     _public := mkPublic host;
     _private := None;
     _keys := None;
     _onboarding := None;
     _eth := None |}.

Definition set_private (this : t) (p : Private.t) : t :=
  {| host := host this; apiTimeout := apiTimeout this;
     apiPrivateKey := apiPrivateKey this;
     starkPrivateKey := starkPrivateKey this;
     web3 := web3 this; _public := _public this;
     _private := Some p; _keys := _keys this;
     _onboarding := _onboarding this; _eth := _eth this |}.

Definition set_keys (this : t) (k : Keys) : t :=
  {| host := host this; apiTimeout := apiTimeout this;
     apiPrivateKey := apiPrivateKey this;
     starkPrivateKey := starkPrivateKey this;
     web3 := web3 this; _public := _public this;
     _private := _private this; _keys := Some k;
     _onboarding := _onboarding this; _eth := _eth this |}.

Definition set_onboarding (this : t) (o : Onboarding) : t :=
  {| host := host this; apiTimeout := apiTimeout this;
     apiPrivateKey := apiPrivateKey this;
     starkPrivateKey := starkPrivateKey this;
     web3 := web3 this; _public := _public this;
     _private := _private this; _keys := _keys this;
     _onboarding := Some o; _eth := _eth this |}.

Definition set_eth (this : t) (e : Eth) : t :=
  {| host := host this; apiTimeout := apiTimeout this;
     apiPrivateKey := apiPrivateKey this;
     starkPrivateKey := starkPrivateKey this;
     web3 := web3 this; _public := _public this;
     _private := _private this; _keys := _keys this;
     _onboarding := _onboarding this; _eth := Some e |}.

(** The getters return the module (or the stub) and the client as the
    access leaves it; [private] throws what the key derivation throws. *)

Definition public (this : t) : Public := _public this.

Definition private `{Collaborators} (this : t)
    : Result (Gated Private.t * t) :=
  match _private this with
  | Some p => Ok (Module_ p, this)
  | None =>
      match apiPrivateKey this with
      | Some key =>
          if key_truthy key then
            match Private.new (host this) key (starkPrivateKey this) with
            | Ok p => Ok (Module_ p, set_private this p)
            | Throw e => Throw e
            end
          else Ok (NotSupported, this)
      | None => Ok (NotSupported, this)
      end
  end.

Definition keys (this : t) : Gated Keys * t :=
  match _keys this with
  | Some k => (Module_ k, this)
  | None =>
      match web3 this with
      | Some w =>
          let k := mkKeys (host this) w in
          (Module_ k, set_keys this k)
      | None => (NotSupported, this)
      end
  end.

Definition onboarding (this : t) : Gated Onboarding * t :=
  match _onboarding this with
  | Some o => (Module_ o, this)
  | None =>
      match web3 this with
      | Some w =>
          let o := mkOnboarding (host this) w in
          (Module_ o, set_onboarding this o)
      | None => (NotSupported, this)
      end
  end.

Definition eth (this : t) : Gated Eth * t :=
  match _eth this with
  | Some e => (Module_ e, this)
  | None =>
      match web3 this with
      | Some w =>
          let e := mkEth w in
          (Module_ e, set_eth this e)
      | None => (NotSupported, this)
      end
  end.

(** No API private key was supplied: [this.apiPrivateKey] is falsy. *)
Definition no_api_key (this : t) : Prop :=
  match apiPrivateKey this with
  | Some key => key_truthy key = false
  | None => True
  end.

(** The life of a client instance: any sequence of getter accesses. *)
Inductive Access :=
| AccessPrivate
| AccessKeys
| AccessOnboarding
| AccessEth.

Definition access `{Collaborators} (this : t) (a : Access) : t :=
  match a with
  | AccessPrivate =>
      match private this with
      | Ok (_, this') => this'
      | Throw _ => this
      end
  | AccessKeys => snd (keys this)
  | AccessOnboarding => snd (onboarding this)
  | AccessEth => snd (eth this)
  end.

Definition accesses `{Collaborators} (this : t) (l : list Access) : t :=
  fold_left access l this.

(** The memoized modules of a client built over host [h] with the [web3]
    instance [w3] are the ones the getters build. *)
Definition memo_invariant (h : string) (w3 : Web3) (this : t) : Prop :=
  host this = h /\ web3 this = Some w3 /\
  (_keys this = None \/ _keys this = Some (mkKeys h w3)) /\
  (_onboarding this = None \/ _onboarding this = Some (mkOnboarding h w3)) /\
  (_eth this = None \/ _eth this = Some (mkEth w3)).

End DydxClient.

(** ** Properties of the assembled values, in the words of the specification *)

(** The signable value [signable] holds the caller's fields and the injected
    [clientId], [positionId] and stark public key, its expiration comes from
    the caller's [expiration], and outside of these and of the fields listed
    in [mapped] nothing is added or altered. *)
Definition signable_fields (mapped : list string)
    (params signable : JsObject) (clientId : JsValue)
    (positionId starkKey : string) : Prop :=
  signable !! "clientId" = Some clientId /\
  signable !! "positionId" = Some (JsString positionId) /\
  signable !! "starkKey" = Some (JsString starkKey) /\
  signable !! "expiresAt" = Some (Js.get params "expiration") /\
  forall k : string,
    k ∉ ("clientId" :: "positionId" :: "starkKey" :: "expiresAt" :: mapped) ->
    signable !! k = params !! k.

(** The stark signer is not invoked, the call is the POST of the payload
    whatever the stark key pair of the client, and the payload carries the
    signature [supplied] by the caller. *)
Definition supplied_signature_is_kept `{Collaborators} (this : Private.t)
    (params : JsObject) (positionId : string) (w : World)
    (supplied : string) : Prop :=
  let clientId := Private.clientIdIn params w in
  let posted := Private.signedPayload params clientId (JsString supplied) in
  posted !! "signature" = Some (JsString supplied) /\
  (Forall (fun e => is_stark_sign e = false)
          (emitted (Private.createOrder this params positionId) w) /\
   Private.createOrder this params positionId w =
     Private.post this "orders" posted (Private.after_clientId params w) /\
   (forall config,
       In (Axios config)
          (emitted (Private.createOrder this params positionId) w) ->
       data config = Some posted)) /\
  (Forall (fun e => is_stark_sign e = false)
          (emitted (Private.createWithdrawal this params positionId) w) /\
   Private.createWithdrawal this params positionId w =
     Private.post this "withdrawals" posted
       (Private.after_clientId params w) /\
   (forall config,
       In (Axios config)
          (emitted (Private.createWithdrawal this params positionId) w) ->
       data config = Some posted)).

(** The identifier [supplied] by the caller is the [clientId] of the call:
    none is generated, and the signed value and the posted payload carry
    it. *)
Definition supplied_clientId_is_kept `{Collaborators} (this : Private.t)
    (params : JsObject) (positionId : string) (w : World)
    (supplied : string) : Prop :=
  Private.clientIdIn params w = JsString supplied /\
  Private.after_clientId params w = w /\
  ((forall o stark,
       In (StarkOrderSign o stark)
          (emitted (Private.createOrder this params positionId) w) ->
       o !! "clientId" = Some (JsString supplied)) /\
   (forall config,
       In (Axios config)
          (emitted (Private.createOrder this params positionId) w) ->
       exists posted,
         data config = Some posted /\
         posted !! "clientId" = Some (JsString supplied))) /\
  ((forall o stark,
       In (StarkWithdrawalSign o stark)
          (emitted (Private.createWithdrawal this params positionId) w) ->
       o !! "clientId" = Some (JsString supplied)) /\
   (forall config,
       In (Axios config)
          (emitted (Private.createWithdrawal this params positionId) w) ->
       exists posted,
         data config = Some posted /\
         posted !! "clientId" = Some (JsString supplied))).

(** With [signature] omitted and the stark key pair [stark] configured, the
    value handed to the stark signer by either method satisfies
    [signable_fields], with the further mapped fields [order_mapped] and
    [withdrawal_mapped]. *)
Definition signed_value_has_fields `{Collaborators}
    (order_mapped withdrawal_mapped : list string) (this : Private.t)
    (params : JsObject) (positionId : string) (w : World)
    (stark : KeyPair) : Prop :=
  (exists o rest,
      emitted (Private.createOrder this params positionId) w =
        StarkOrderSign o stark :: rest /\
      Forall (fun e => is_stark_sign e = false) rest /\
      signable_fields order_mapped params o
        (Private.clientIdIn params w) positionId (publicKey stark)) /\
  (exists o rest,
      emitted (Private.createWithdrawal this params positionId) w =
        StarkWithdrawalSign o stark :: rest /\
      Forall (fun e => is_stark_sign e = false) rest /\
      signable_fields withdrawal_mapped params o
        (Private.clientIdIn params w) positionId (publicKey stark)).

(** [signature] is the finalized signature of a call of [createOrder]: the
    supplied one when it is truthy, else the one the stark signer returns
    for the order to sign. *)
Definition order_signature `{Collaborators} (this : Private.t)
    (params : JsObject) (positionId : string) (w : World)
    (signature : JsValue) : Prop :=
  truthy (Js.get params "signature") = true /\
  signature = Js.get params "signature" \/
  truthy (Js.get params "signature") = false /\
  exists stark s,
    Private.starkKeyPair this = Some stark /\
    StarkExOrder_sign
      (Private.orderToSign params (Private.clientIdIn params w) positionId
         stark) stark = Ok s /\
    signature = JsString s.

(** The same for [createWithdrawal]. *)
Definition withdrawal_signature `{Collaborators} (this : Private.t)
    (params : JsObject) (positionId : string) (w : World)
    (signature : JsValue) : Prop :=
  truthy (Js.get params "signature") = true /\
  signature = Js.get params "signature" \/
  truthy (Js.get params "signature") = false /\
  exists stark s,
    Private.starkKeyPair this = Some stark /\
    StarkExWithdrawal_sign
      (Private.withdrawalToSign params (Private.clientIdIn params w)
         positionId stark) stark = Ok s /\
    signature = JsString s.

(** The request [this] sends to [endpoint] for the body [posted], stamped
    with the clock reading of [w], once the API signer returned
    [signature] for it. *)
Definition post_request (this : Private.t) (endpoint : string)
    (posted : JsObject) (w : World) (signature : string)
    : AxiosRequestConfig :=
  Private.axiosConfig this POST ("/v3/" ++ endpoint) (Some posted)
    (clock_source w (clock_reads w)) signature.

(** The envelope that is signed for it. *)
Definition post_envelope `{Collaborators} (this : Private.t)
    (endpoint : string) (posted : JsObject) (w : World) : ApiRequest :=
  Private.envelope this ("/v3/" ++ endpoint) POST
    (clock_source w (clock_reads w)) (Some posted).

(** A non-empty string of decimal digits that does not start with ['0']. *)
Definition is_digit (c : ascii) : bool :=
  ((48 <=? nat_of_ascii c)%nat && (nat_of_ascii c <=? 57)%nat)%bool.

Fixpoint all_digits (s : string) : bool :=
  match s with
  | EmptyString => true
  | String c rest => (is_digit c && all_digits rest)%bool
  end.

Definition numeral_without_leading_zero (s : string) : bool :=
  match s with
  | EmptyString => false
  | String c rest => (negb (Ascii.eqb c "0") && all_digits s)%bool
  end.

(** ** The public methods of [Private], as one type of calls *)

(** One constructor for each public method of the class, with its
    arguments. *)
Inductive Call :=
| GetRegistration
| GetUser
| UpdateUser (email username : string) (userData : JsObject)
| CreateAccount (starkKey : string)
| GetAccount (ethereumAddress : string)
| GetAccounts
| GetPositions (params : JsObject)
| GetOrders (params : JsObject)
| GetOrderById (orderId : string)
| GetOrderByClientId (clientId : string)
| CreateOrder (params : JsObject) (positionId : string)
| CancelOrder (orderId : string)
| CancelAllOrders (market : option string)
| GetFills (params : JsObject)
| GetTransfers (params : JsObject)
| CreateWithdrawal (params : JsObject) (positionId : string)
| CreateDeposit (params : JsObject)
| GetFundingPayments (params : JsObject).

(** Calling the method on [this]. *)
Definition perform `{Collaborators} (this : Private.t) (c : Call) : M Data :=
  match c with
  | GetRegistration => Private.getRegistration this
  | GetUser => Private.getUser this
  | UpdateUser email username userData =>
      Private.updateUser this email username userData
  | CreateAccount starkKey => Private.createAccount this starkKey
  | GetAccount ethereumAddress => Private.getAccount this ethereumAddress
  | GetAccounts => Private.getAccounts this
  | GetPositions params => Private.getPositions this params
  | GetOrders params => Private.getOrders this params
  | GetOrderById orderId => Private.getOrderById this orderId
  | GetOrderByClientId clientId => Private.getOrderByClientId this clientId
  | CreateOrder params positionId =>
      Private.createOrder this params positionId
  | CancelOrder orderId => Private.cancelOrder this orderId
  | CancelAllOrders market => Private.cancelAllOrders this market
  | GetFills params => Private.getFills this params
  | GetTransfers params => Private.getTransfers this params
  | CreateWithdrawal params positionId =>
      Private.createWithdrawal this params positionId
  | CreateDeposit params => Private.createDeposit this params
  | GetFundingPayments params => Private.getFundingPayments this params
  end.

(** The methods named [get...]. *)
Definition is_query (c : Call) : bool :=
  match c with
  | GetRegistration | GetUser | GetAccount _ | GetAccounts | GetPositions _
  | GetOrders _ | GetOrderById _ | GetOrderByClientId _ | GetFills _
  | GetTransfers _ | GetFundingPayments _ => true
  | _ => false
  end.

(** The two methods that assemble a signed action. *)
Definition is_signed_action (c : Call) : bool :=
  match c with
  | CreateOrder _ _ | CreateWithdrawal _ _ => true
  | _ => false
  end.

(** A signed action whose params carry no usable [clientId]. *)
Definition lacks_clientId (c : Call) : bool :=
  match c with
  | CreateOrder params _ | CreateWithdrawal params _ =>
      negb (truthy (Js.get params "clientId"))
  | _ => false
  end.

Definition is_axios (e : Event) : bool :=
  match e with
  | Axios _ => true
  | _ => false
  end.

Definition is_api_sign (e : Event) : bool :=
  match e with
  | ApiRequestSign _ _ => true
  | _ => false
  end.

(** How often a run called the transport, the API signer, the stark
    signer. *)
Definition transport_calls (evs : list Event) : nat :=
  length (List.filter is_axios evs).

Definition api_signatures (evs : list Event) : nat :=
  length (List.filter is_api_sign evs).

Definition stark_signatures (evs : list Event) : nat :=
  length (List.filter is_stark_sign evs).

(** The envelope [env] that was signed describes the request [config] that
    is sent from [host]: same path, method, body, key and timestamp. *)
Definition signed_as_sent `{Collaborators} (host : string) (env : ApiRequest)
    (config : AxiosRequestConfig) : Prop :=
  url config = host ++ requestPath env /\
  method env = METHOD_ENUM_MAP (axiosMethod config) /\
  body env = match data config with
             | Some d => JSON_stringify d
             | None => ""
             end /\
  headers config !! "DYDX-API-KEY" = Some (apiPublicKey env) /\
  headers config !! "DYDX-TIMESTAMP" = Some (expiresAt env).

(** ** A sample instantiation, to run the methods on concrete inputs *)

Module Sample.

Definition render (v : JsValue) : string :=
  match v with
  | JsUndefined => "undefined"
  | JsNull => "null"
  | JsBool true => "true"
  | JsBool false => "false"
  | JsNumber z => nat_string (Z.to_nat z)
  | JsString s => s
  end.

Definition render_fields (o : JsObject) : string :=
  String.concat "&"
    (map (fun kv : string * JsValue => fst kv ++ "=" ++ render (snd kv))
         (properties o)).

Definition collaborators : Collaborators := {|
  asKeyPair k :=
    match k with
    | KeyString s => Ok (mkKeyPair ("public-of-" ++ s) s)
    | KeyObject kp => Ok kp
    end;
  generateQueryPath endpoint params :=
    match properties params with
    | [] => endpoint
    | _ :: _ => endpoint ++ "?" ++ render_fields params
    end;
  JSON_stringify o := "{" ++ render_fields o ++ "}";
  StarkExOrder_sign o kp := Ok ("order-signed-by-" ++ privateKey kp);
  StarkExWithdrawal_sign o kp :=
    Ok ("withdrawal-signed-by-" ++ privateKey kp);
  ApiRequest_sign r key := Ok ("request-signed-by-" ++ key);
  getAccountId address := "account-of-" ++ address;
  axiosRequest config := Ok ∅;
|}.

Definition apiKeys : KeyPair := mkKeyPair "api-public" "api-secret".
Definition starkKeys : KeyPair := mkKeyPair "stark-public" "stark-secret".

Definition trader : Private.t :=
  Private.mk "https://api.dydx.exchange" apiKeys (Some starkKeys).

Definition trader_without_stark : Private.t :=
  Private.mk "https://api.dydx.exchange" apiKeys None.

Definition other_trader : Private.t :=
  Private.mk "https://api.stage.dydx.exchange" apiKeys None.

(** A world whose [Math.random()] returns [x] and whose clock is fixed. *)
Definition world (x : Number) : World :=
  {| random_source := fun _ => x;
     random_calls := 0;
     clock_source := fun _ => "2021-02-03T04:05:06.789Z";
     clock_reads := 0;
     trace := [] |}.

Definition order : JsObject :=
  Obj [("market", JsString "BTC-USD");
       ("side", JsString "BUY");
       ("type", JsString "LIMIT");
       ("size", JsString "1");
       ("price", JsString "30000");
       ("expiration", JsString "2021-03-01T00:00:00.000Z")].

Definition withdrawal : JsObject :=
  Obj [("amount", JsString "100");
       ("asset", JsString "USDC");
       ("expiration", JsString "2021-03-01T00:00:00.000Z")].

Definition presigned_order : JsObject :=
  <["signature" := JsString "0a1b2c"]> order.

Definition order_with_clientId : JsObject :=
  <["clientId" := JsString "1234"]> order.

Definition order_with_empty_signature : JsObject :=
  <["signature" := JsString ""]> order.

Definition order_with_empty_clientId : JsObject :=
  <["clientId" := JsString ""]> order.

Definition timestamp : string := "2021-02-03T04:05:06.789Z".

(** The request [trader] dispatches for [POST orders] with body [o]. *)
Definition posted (endpoint : string) (o : JsObject)
    : AxiosRequestConfig :=
  Private.axiosConfig trader POST ("/v3/" ++ endpoint) (Some o) timestamp
    "request-signed-by-api-secret".

(** 0.42, 0.05, 0 and 2^-20 = 9.5367431640625e-7 *)
Definition x042 : Number := Dec [4; 2] 0.
Definition x005 : Number := Dec [5] (-1).
Definition x2pow_minus20 : Number :=
  Dec [9; 5; 3; 6; 7; 4; 3; 1; 6; 4; 0; 6; 2; 5] (-6).

(** Collaborators whose API signer rejects every envelope, and ones whose
    stark signers reject every value. *)
Definition without_api_signer : Collaborators := {|
  asKeyPair := @asKeyPair collaborators;
  generateQueryPath := @generateQueryPath collaborators;
  JSON_stringify := @JSON_stringify collaborators;
  StarkExOrder_sign := @StarkExOrder_sign collaborators;
  StarkExWithdrawal_sign := @StarkExWithdrawal_sign collaborators;
  ApiRequest_sign r key := Throw (Error "invalid API key");
  getAccountId := @getAccountId collaborators;
  axiosRequest := @axiosRequest collaborators;
|}.

Definition without_stark_signer : Collaborators := {|
  asKeyPair := @asKeyPair collaborators;
  generateQueryPath := @generateQueryPath collaborators;
  JSON_stringify := @JSON_stringify collaborators;
  StarkExOrder_sign o kp := Throw (Error "invalid stark key");
  StarkExWithdrawal_sign o kp := Throw (Error "invalid stark key");
  ApiRequest_sign := @ApiRequest_sign collaborators;
  getAccountId := @getAccountId collaborators;
  axiosRequest := @axiosRequest collaborators;
|}.

(** An order that carries both its identifier and its signature. *)
Definition complete_order : JsObject :=
  <["signature" := JsString "0a1b2c"]> order_with_clientId.

(** Options with an API key only, and the client built from them. *)
Definition api_only : DydxClient.ClientOptions :=
  DydxClient.mkClientOptions None (Some (KeyString "api-secret")) None None.

Definition no_keys : DydxClient.ClientOptions :=
  DydxClient.mkClientOptions None None None None.

Definition api_only_module : Private.t :=
  Private.mk "https://api.dydx.exchange"
    (mkKeyPair "public-of-api-secret" "api-secret") None.

End Sample.

(** * Verification *)

(** ** [Number::toString] on sample values *)

Example toString_half : Number_toString (Dec [5] 0) = "0.5".
Proof. reflexivity. Qed.

Example toString_small : Number_toString (Dec [1; 2; 3] (-2)) = "0.00123".
Proof. reflexivity. Qed.

Example toString_smallest_fixed : Number_toString (Dec [1] (-5)) = "0.000001".
Proof. reflexivity. Qed.

Example toString_exponent : Number_toString (Dec [1; 2; 3] (-6)) = "1.23e-7".
Proof. reflexivity. Qed.

Example toString_one_digit_exponent : Number_toString (Dec [5] (-6)) = "5e-7".
Proof. reflexivity. Qed.

Example toString_integer : Number_toString (Dec [1; 2] 4) = "1200".
Proof. reflexivity. Qed.

Example toString_fraction : Number_toString (Dec [1; 2; 5] 2) = "12.5".
Proof. reflexivity. Qed.

(** ** Objects *)

Lemma assoc_lookup_set (k : string) (v : JsValue)
    (l : list (string * JsValue)) :
  assoc_lookup k (assoc_set k v l) = Some v.
Proof.
  induction l as [| [k' v'] l IH]; simpl.
  - now rewrite String.eqb_refl.
  - destruct (String.eqb k' k) eqn:Hk; simpl; now rewrite Hk.
Qed.

Lemma assoc_lookup_set_ne (k k' : string) (v : JsValue)
    (l : list (string * JsValue)) :
  k <> k' -> assoc_lookup k' (assoc_set k v l) = assoc_lookup k' l.
Proof.
  intros Hne. induction l as [| [k0 v0] l IH]; simpl.
  - apply String.eqb_neq in Hne. now rewrite Hne.
  - destruct (String.eqb k0 k) eqn:Hk; simpl; [| now rewrite IH].
    apply String.eqb_eq in Hk. subst k0.
    apply String.eqb_neq in Hne. now rewrite Hne.
Qed.

(** Reading a property that was just set, and any other one. *)
Lemma lookup_set (o : JsObject) (k : string) (v : JsValue) :
  <[k := v]> o !! k = Some v.
Proof. apply assoc_lookup_set. Qed.

Lemma lookup_set_ne (o : JsObject) (k k' : string) (v : JsValue) :
  k <> k' -> <[k := v]> o !! k' = o !! k'.
Proof. apply assoc_lookup_set_ne. Qed.

(** Setting a property keeps the properties in place: a present one keeps
    its position, an absent one is added last. *)
Lemma set_keeps_order (o : JsObject) (k : string) (v : JsValue) :
  map fst (properties (<[k := v]> o)) =
    match o !! k with
    | Some _ => map fst (properties o)
    | None => (map fst (properties o) ++ [k])%list
    end.
Proof.
  destruct o as [l]. unfold insert, JsObject_insert, lookup, JsObject_lookup.
  simpl. induction l as [| [k' v'] l IH]; simpl; [reflexivity |].
  destruct (String.eqb k' k) eqn:Hk; simpl; [reflexivity |].
  rewrite IH. now destruct (assoc_lookup k l).
Qed.

(** ** Running the monad *)

Lemma emitted_app {A} (m : M A) (w : World) (evs : list Event) :
  trace (snd (m w)) = (trace w ++ evs)%list -> emitted m w = evs.
Proof.
  intros Htrace. unfold emitted. rewrite Htrace. apply drop_app_length.
Qed.

Ltac unfold_monad :=
  unfold bind, call, ret, throw, Math_random, Date_now_toISOString, log.

Ltac unfold_request :=
  unfold Private.get, Private.delete, Private.post, Private.put,
    Private.request, Private.sign.

Section Dispatcher.
Context `{Collaborators}.
Implicit Types (this : Private.t) (w : World).
Implicit Types (d : option JsObject).

(** What one run of [request] does, step by step. *)
Lemma request_run this method endpoint d w :
  let timestamp := clock_source w (clock_reads w) in
  let path := "/v3/" ++ endpoint in
  let env := Private.envelope this path method timestamp d in
  let key := privateKey (Private.apiKeyPair this) in
  Private.request this method endpoint d w =
    match ApiRequest_sign env key with
    | Throw e => (Throw e, log (ApiRequestSign env key) (after_clock w))
    | Ok signature =>
        let config :=
          Private.axiosConfig this method path d timestamp signature in
        (axiosRequest config,
         log (Axios config) (log (ApiRequestSign env key) (after_clock w)))
    end.
Proof.
  unfold_request. unfold_monad. unfold after_clock. simpl.
  now destruct ApiRequest_sign.
Qed.

Lemma request_emitted this method endpoint d w :
  let timestamp := clock_source w (clock_reads w) in
  let path := "/v3/" ++ endpoint in
  let env := Private.envelope this path method timestamp d in
  let key := privateKey (Private.apiKeyPair this) in
  emitted (Private.request this method endpoint d) w =
    ApiRequestSign env key ::
    match ApiRequest_sign env key with
    | Throw _ => []
    | Ok signature =>
        [Axios (Private.axiosConfig this method path d timestamp signature)]
    end.
Proof.
  intros timestamp path env key. apply emitted_app.
  rewrite request_run. fold timestamp path env key.
  destruct (ApiRequest_sign env key); simpl; [| reflexivity].
  now rewrite <- app_assoc.
Qed.

(** [request] neither draws random numbers nor changes the sources. *)
Lemma request_random this method endpoint d w :
  random_calls (snd (Private.request this method endpoint d w)) =
  random_calls w.
Proof. rewrite request_run. now destruct ApiRequest_sign. Qed.

End Dispatcher.

Section DispatcherClaims.
Context `{Collaborators}.
Implicit Types (this : Private.t) (w : World).
Implicit Types (d : option JsObject).

(** C6. For every dispatched request the full request path is the endpoint
    prefixed by the fixed version segment [/v3/]: it is the path of the
    signed envelope and, after the host, the URL handed to the transport.
    For GET and DELETE the endpoint passed to the dispatcher is the one
    the query-path generator built from the endpoint and the params, so
    the signed path includes the query string. *)
Theorem request_path_is_versioned_endpoint this method endpoint d
    (params : JsObject) w :
  (exists env rest,
      emitted (Private.request this method endpoint d) w =
        ApiRequestSign env (privateKey (Private.apiKeyPair this)) :: rest /\
      requestPath env = "/v3/" ++ endpoint /\
      Forall (fun e => exists config, e = Axios config /\
                url config = Private.host this ++ "/v3/" ++ endpoint) rest) /\
  Private.get this endpoint params =
    Private.request this GET (generateQueryPath endpoint params) None /\
  Private.delete this endpoint params =
    Private.request this DELETE (generateQueryPath endpoint params) None /\
  (exists env rest,
      emitted (Private.get this endpoint params) w =
        ApiRequestSign env (privateKey (Private.apiKeyPair this)) :: rest /\
      requestPath env = "/v3/" ++ generateQueryPath endpoint params) /\
  (exists env rest,
      emitted (Private.delete this endpoint params) w =
        ApiRequestSign env (privateKey (Private.apiKeyPair this)) :: rest /\
      requestPath env = "/v3/" ++ generateQueryPath endpoint params).
Proof.
  split; [| split; [reflexivity | split; [reflexivity | split]]].
  - rewrite request_emitted. eexists _, _. split; [reflexivity |].
    split; [reflexivity |].
    destruct ApiRequest_sign; constructor; [| constructor].
    eexists. split; reflexivity.
  - unfold Private.get. rewrite request_emitted.
    eexists _, _. split; reflexivity.
  - unfold Private.delete. rewrite request_emitted.
    eexists _, _. split; reflexivity.
Qed.

(** C7. Every request handed to the transport carries exactly three
    headers: [DYDX-SIGNATURE] is the signature the API signer returned for
    the envelope of this request, [DYDX-API-KEY] is the public key of the
    API key pair, and [DYDX-TIMESTAMP] is the timestamp inside that signed
    envelope. *)
Theorem request_attaches_three_headers this method endpoint d w config :
  In (Axios config) (emitted (Private.request this method endpoint d) w) ->
  exists timestamp signature,
    let env :=
      Private.envelope this ("/v3/" ++ endpoint) method timestamp d in
    let key := privateKey (Private.apiKeyPair this) in
    In (ApiRequestSign env key)
       (emitted (Private.request this method endpoint d) w) /\
    ApiRequest_sign env key = Ok signature /\
    expiresAt env = timestamp /\
    headers config !! "DYDX-SIGNATURE" = Some signature /\
    headers config !! "DYDX-API-KEY" =
      Some (publicKey (Private.apiKeyPair this)) /\
    headers config !! "DYDX-TIMESTAMP" = Some timestamp /\
    dom (headers config) =
      ({[ "DYDX-SIGNATURE"; "DYDX-API-KEY"; "DYDX-TIMESTAMP" ]}
         : gset string) /\
    size (headers config) = 3.
Proof.
  rewrite request_emitted. cbv zeta.
  set (timestamp := clock_source w (clock_reads w)).
  set (env := Private.envelope this _ method timestamp d).
  destruct (ApiRequest_sign env _) as [signature | e] eqn:Hsign;
    simpl; intros [Habs | Hin]; try discriminate; try contradiction.
  destruct Hin as [Hconfig | []]. injection Hconfig as <-.
  exists timestamp, signature. fold env. rewrite Hsign.
  split; [now left |]. split; [reflexivity |]. split; [reflexivity |].
  unfold Private.axiosConfig; simpl.
  split; [apply lookup_insert_eq |].
  split; [now rewrite lookup_insert_ne, lookup_insert_eq |].
  split; [now rewrite !lookup_insert_ne, lookup_singleton_eq |].
  split.
  - rewrite !dom_insert_L, dom_singleton_L. set_solver.
  - rewrite !map_size_insert_None, map_size_singleton; [reflexivity | |].
    + now rewrite lookup_singleton_ne.
    + rewrite lookup_insert_ne by discriminate.
      now rewrite lookup_singleton_ne.
Qed.

(** C8. The request signer is deterministic: two invocations with the same
    path, method, timestamp and data, on clients holding the same API key
    pair, hand the same envelope to the signing primitive and return the
    same outcome, whatever the state of the world; no random number is
    drawn and the clock is not read.  The body in the envelope is the JSON
    serialization of the data, or the empty string without data. *)
Theorem sign_is_deterministic this1 this2 w1 w2 path method timestamp d :
  Private.apiKeyPair this1 = Private.apiKeyPair this2 ->
  fst (Private.sign this1 path method timestamp d w1) =
    fst (Private.sign this2 path method timestamp d w2) /\
  emitted (Private.sign this1 path method timestamp d) w1 =
    emitted (Private.sign this2 path method timestamp d) w2 /\
  (exists env,
      emitted (Private.sign this1 path method timestamp d) w1 =
        [ApiRequestSign env (privateKey (Private.apiKeyPair this1))] /\
      fst (Private.sign this1 path method timestamp d w1) =
        ApiRequest_sign env (privateKey (Private.apiKeyPair this1)) /\
      body env = match d with
                 | Some o => JSON_stringify o
                 | None => ""
                 end) /\
  random_calls (snd (Private.sign this1 path method timestamp d w1)) =
    random_calls w1 /\
  clock_reads (snd (Private.sign this1 path method timestamp d w1)) =
    clock_reads w1.
Proof.
  intros Hkeys.
  assert (Hemit : forall this w,
    emitted (Private.sign this path method timestamp d) w =
      [ApiRequestSign (Private.envelope this path method timestamp d)
         (privateKey (Private.apiKeyPair this))]).
  { intros this w. now apply emitted_app. }
  rewrite !Hemit. unfold Private.sign, call, Private.envelope; simpl.
  rewrite Hkeys. repeat split.
  eexists. repeat split.
Qed.

End DispatcherClaims.

(** ** The order and withdrawal assembler *)

Section Assembler.
Context `{Collaborators}.
Implicit Types (this : Private.t) (w : World).
Implicit Types (params : JsObject) (positionId : string).

(** Resolving the identifier never throws and touches neither the clock
    nor the trace. *)
Lemma resolveClientId_run params w :
  Private.resolveClientId params w =
    (Ok (Private.clientIdIn params w), Private.after_clientId params w).
Proof.
  unfold Private.clientIdIn, Private.after_clientId, Private.resolveClientId.
  now destruct (truthy (Js.get params "clientId")).
Qed.

Lemma after_clientId_trace params w :
  trace (Private.after_clientId params w) = trace w.
Proof.
  unfold Private.after_clientId, Private.resolveClientId.
  now destruct (truthy (Js.get params "clientId")).
Qed.

Lemma after_clientId_clock params w :
  clock_source (Private.after_clientId params w) = clock_source w /\
  clock_reads (Private.after_clientId params w) = clock_reads w.
Proof.
  unfold Private.after_clientId, Private.resolveClientId.
  now destruct (truthy (Js.get params "clientId")).
Qed.

(** The events of [request] depend on the world through the clock only. *)
Lemma request_emitted_clock this method endpoint d w w' :
  clock_source w' = clock_source w -> clock_reads w' = clock_reads w ->
  emitted (Private.request this method endpoint d) w' =
  emitted (Private.request this method endpoint d) w.
Proof.
  intros Hsource Hreads. rewrite !request_emitted.
  now rewrite Hsource, Hreads.
Qed.

Lemma request_trace this method endpoint d w :
  trace (snd (Private.request this method endpoint d w)) =
  (trace w ++ emitted (Private.request this method endpoint d) w)%list.
Proof.
  rewrite request_emitted, request_run.
  destruct ApiRequest_sign; simpl; [| reflexivity].
  now rewrite <- app_assoc.
Qed.

#[local] Abbreviation payload params w signature :=
  (Private.signedPayload params (Private.clientIdIn params w) signature).

(** What one run of [createOrder] does, case by case. *)
Lemma createOrder_run this params positionId w :
  let w1 := Private.after_clientId params w in
  Private.createOrder this params positionId w =
    if truthy (Js.get params "signature") then
      Private.post this "orders"
        (payload params w (Js.get params "signature")) w1
    else
      match Private.starkKeyPair this with
      | None =>
          (Throw (Error "Order is not signed and client was not initialized with starkPrivateKey"),
           w1)
      | Some stark =>
          let o := Private.orderToSign params
                     (Private.clientIdIn params w) positionId stark in
          match StarkExOrder_sign o stark with
          | Throw e => (Throw e, log (StarkOrderSign o stark) w1)
          | Ok s =>
              Private.post this "orders" (payload params w (JsString s))
                (log (StarkOrderSign o stark) w1)
          end
      end.
Proof.
  unfold Private.createOrder, bind at 1. rewrite resolveClientId_run.
  destruct (truthy (Js.get params "signature")); [reflexivity |].
  destruct (Private.starkKeyPair this) as [stark |]; [| reflexivity].
  unfold_monad. simpl. now destruct StarkExOrder_sign.
Qed.

Lemma createWithdrawal_run this params positionId w :
  let w1 := Private.after_clientId params w in
  Private.createWithdrawal this params positionId w =
    if truthy (Js.get params "signature") then
      Private.post this "withdrawals"
        (payload params w (Js.get params "signature")) w1
    else
      match Private.starkKeyPair this with
      | None =>
          (Throw (Error "Withdrawal is not signed and client was not initialized with starkPrivateKey"),
           w1)
      | Some stark =>
          let o := Private.withdrawalToSign params
                     (Private.clientIdIn params w) positionId stark in
          match StarkExWithdrawal_sign o stark with
          | Throw e => (Throw e, log (StarkWithdrawalSign o stark) w1)
          | Ok s =>
              Private.post this "withdrawals"
                (payload params w (JsString s))
                (log (StarkWithdrawalSign o stark) w1)
          end
      end.
Proof.
  unfold Private.createWithdrawal, bind at 1. rewrite resolveClientId_run.
  destruct (truthy (Js.get params "signature")); [reflexivity |].
  destruct (Private.starkKeyPair this) as [stark |]; [| reflexivity].
  unfold_monad. simpl. now destruct StarkExWithdrawal_sign.
Qed.

(** The events of a [post] that follows the resolution of the identifier
    and, possibly, one stark signature. *)
Lemma post_after this endpoint o w w' (evs : list Event) :
  trace w' = (trace w ++ evs)%list ->
  clock_source w' = clock_source w -> clock_reads w' = clock_reads w ->
  emitted (fun _ => Private.post this endpoint o w') w =
  (evs ++ emitted (Private.post this endpoint o) w)%list.
Proof.
  intros Htrace Hsource Hreads. apply emitted_app. unfold Private.post.
  rewrite request_trace, Htrace, <- app_assoc.
  now rewrite (request_emitted_clock _ _ _ _ w w').
Qed.

Lemma createOrder_emitted this params positionId w :
  emitted (Private.createOrder this params positionId) w =
    if truthy (Js.get params "signature") then
      emitted (Private.post this "orders"
                 (payload params w (Js.get params "signature"))) w
    else
      match Private.starkKeyPair this with
      | None => []
      | Some stark =>
          let o := Private.orderToSign params
                     (Private.clientIdIn params w) positionId stark in
          StarkOrderSign o stark ::
          match StarkExOrder_sign o stark with
          | Throw _ => []
          | Ok s =>
              emitted (Private.post this "orders"
                         (payload params w (JsString s))) w
          end
      end.
Proof.
  pose proof (after_clientId_trace params w) as Htrace.
  destruct (after_clientId_clock params w) as [Hsource Hreads].
  unfold emitted at 1. rewrite createOrder_run. cbv zeta.
  destruct (truthy (Js.get params "signature")).
  - apply (post_after this "orders" _ w _ []); [| assumption ..].
    now rewrite app_nil_r.
  - destruct (Private.starkKeyPair this) as [stark |].
    + destruct StarkExOrder_sign.
      * apply (post_after this "orders" _ w _ [_]); simpl;
          [now rewrite Htrace | assumption ..].
      * simpl. rewrite Htrace. apply drop_app_length.
    + simpl. rewrite Htrace. apply drop_all.
Qed.

Lemma createWithdrawal_emitted this params positionId w :
  emitted (Private.createWithdrawal this params positionId) w =
    if truthy (Js.get params "signature") then
      emitted (Private.post this "withdrawals"
                 (payload params w (Js.get params "signature"))) w
    else
      match Private.starkKeyPair this with
      | None => []
      | Some stark =>
          let o := Private.withdrawalToSign params
                     (Private.clientIdIn params w) positionId stark in
          StarkWithdrawalSign o stark ::
          match StarkExWithdrawal_sign o stark with
          | Throw _ => []
          | Ok s =>
              emitted (Private.post this "withdrawals"
                         (payload params w (JsString s))) w
          end
      end.
Proof.
  pose proof (after_clientId_trace params w) as Htrace.
  destruct (after_clientId_clock params w) as [Hsource Hreads].
  unfold emitted at 1. rewrite createWithdrawal_run. cbv zeta.
  destruct (truthy (Js.get params "signature")).
  - apply (post_after this "withdrawals" _ w _ []); [| assumption ..].
    now rewrite app_nil_r.
  - destruct (Private.starkKeyPair this) as [stark |].
    + destruct StarkExWithdrawal_sign.
      * apply (post_after this "withdrawals" _ w _ [_]); simpl;
          [now rewrite Htrace | assumption ..].
      * simpl. rewrite Htrace. apply drop_app_length.
    + simpl. rewrite Htrace. apply drop_all.
Qed.

(** [post] hands one envelope to the API signer and at most one request
    to the transport; it never calls the stark signer. *)
Lemma post_emitted_no_stark this endpoint o w :
  Forall (fun e => is_stark_sign e = false)
         (emitted (Private.post this endpoint o) w).
Proof.
  unfold Private.post. rewrite request_emitted.
  destruct ApiRequest_sign; repeat constructor.
Qed.

Lemma post_emitted_axios this endpoint o w config :
  In (Axios config) (emitted (Private.post this endpoint o) w) ->
  axiosMethod config = POST /\
  url config = Private.host this ++ "/v3/" ++ endpoint /\
  data config = Some o.
Proof.
  unfold Private.post. rewrite request_emitted.
  destruct ApiRequest_sign; simpl; intros [Habs | Hin];
    try discriminate; try contradiction.
  destruct Hin as [Hconfig | []]. injection Hconfig as <-.
  repeat split.
Qed.

Lemma get_omitted params (k : string) :
  params !! k = None -> Js.get params k = JsUndefined.
Proof. intros Hk. unfold Js.get. now rewrite Hk. Qed.

Lemma orderToSign_fields params clientId positionId stark :
  signable_fields [] params
    (Private.orderToSign params clientId positionId stark)
    clientId positionId (publicKey stark).
Proof.
  unfold signable_fields, Private.orderToSign.
  repeat split;
    [rewrite ?lookup_set_ne by discriminate; apply lookup_set .. |].
  intros k Hk. rewrite !not_elem_of_cons in Hk.
  destruct Hk as (? & ? & ? & ? & _).
  now rewrite !lookup_set_ne by congruence.
Qed.

Lemma withdrawalToSign_fields params clientId positionId stark :
  signable_fields ["debitAmount"] params
    (Private.withdrawalToSign params clientId positionId stark)
    clientId positionId (publicKey stark) /\
  Private.withdrawalToSign params clientId positionId stark
    !! "debitAmount" = Some (Js.get params "amount").
Proof.
  unfold signable_fields, Private.withdrawalToSign.
  repeat split;
    [rewrite ?lookup_set_ne by discriminate; apply lookup_set .. | |
     rewrite ?lookup_set_ne by discriminate; apply lookup_set].
  intros k Hk. rewrite !not_elem_of_cons in Hk.
  destruct Hk as (? & ? & ? & ? & ? & _).
  now rewrite !lookup_set_ne by congruence.
Qed.

(** Every stark signature in a call is over the resolved identifier, and
    every posted payload is the params with that identifier and with the
    signature, supplied or just computed. *)
Lemma createOrder_events this params positionId w :
  let clientId := Private.clientIdIn params w in
  (forall o stark,
      In (StarkOrderSign o stark)
         (emitted (Private.createOrder this params positionId) w) ->
      truthy (Js.get params "signature") = false /\
      Private.starkKeyPair this = Some stark /\
      o = Private.orderToSign params clientId positionId stark) /\
  (forall config,
      In (Axios config)
         (emitted (Private.createOrder this params positionId) w) ->
      axiosMethod config = POST /\
      url config = Private.host this ++ "/v3/orders" /\
      exists signature,
        data config =
          Some (Private.signedPayload params clientId signature) /\
        (truthy (Js.get params "signature") = true /\
         signature = Js.get params "signature" \/
         truthy (Js.get params "signature") = false /\
         exists stark s,
           Private.starkKeyPair this = Some stark /\
           StarkExOrder_sign
             (Private.orderToSign params clientId positionId stark) stark =
             Ok s /\
           signature = JsString s)).
Proof.
  cbv zeta. rewrite createOrder_emitted.
  destruct (truthy (Js.get params "signature")) eqn:Hsig.
  - split.
    + intros o stark Hin.
      pose proof (post_emitted_no_stark this "orders"
        (payload params w (Js.get params "signature")) w) as Hno.
      rewrite List.Forall_forall in Hno. now apply Hno in Hin.
    + intros config Hin. apply post_emitted_axios in Hin.
      destruct Hin as (Hm & Hu & Hd). repeat split; [assumption .. |].
      eexists. split; [eassumption |]. now left.
  - destruct (Private.starkKeyPair this) as [stark |] eqn:Hstark;
      [| now split].
    split.
    + intros o stark' [Hhead | Hin].
      * injection Hhead as <- <-. repeat split.
      * destruct StarkExOrder_sign as [s |]; [| contradiction].
        pose proof (post_emitted_no_stark this "orders"
          (payload params w (JsString s)) w) as Hno.
        rewrite List.Forall_forall in Hno. now apply Hno in Hin.
    + intros config [Hhead | Hin]; [discriminate |].
      destruct StarkExOrder_sign as [s |] eqn:Hs; [| contradiction].
      apply post_emitted_axios in Hin.
      destruct Hin as (Hm & Hu & Hd). repeat split; [assumption .. |].
      eexists. split; [eassumption |]. right. split; [reflexivity |].
      now exists stark, s.
Qed.

Lemma createWithdrawal_events this params positionId w :
  let clientId := Private.clientIdIn params w in
  (forall o stark,
      In (StarkWithdrawalSign o stark)
         (emitted (Private.createWithdrawal this params positionId) w) ->
      truthy (Js.get params "signature") = false /\
      Private.starkKeyPair this = Some stark /\
      o = Private.withdrawalToSign params clientId positionId stark) /\
  (forall config,
      In (Axios config)
         (emitted (Private.createWithdrawal this params positionId) w) ->
      axiosMethod config = POST /\
      url config = Private.host this ++ "/v3/withdrawals" /\
      exists signature,
        data config =
          Some (Private.signedPayload params clientId signature) /\
        (truthy (Js.get params "signature") = true /\
         signature = Js.get params "signature" \/
         truthy (Js.get params "signature") = false /\
         exists stark s,
           Private.starkKeyPair this = Some stark /\
           StarkExWithdrawal_sign
             (Private.withdrawalToSign params clientId positionId stark)
             stark = Ok s /\
           signature = JsString s)).
Proof.
  cbv zeta. rewrite createWithdrawal_emitted.
  destruct (truthy (Js.get params "signature")) eqn:Hsig.
  - split.
    + intros o stark Hin.
      pose proof (post_emitted_no_stark this "withdrawals"
        (payload params w (Js.get params "signature")) w) as Hno.
      rewrite List.Forall_forall in Hno. now apply Hno in Hin.
    + intros config Hin. apply post_emitted_axios in Hin.
      destruct Hin as (Hm & Hu & Hd). repeat split; [assumption .. |].
      eexists. split; [eassumption |]. now left.
  - destruct (Private.starkKeyPair this) as [stark |] eqn:Hstark;
      [| now split].
    split.
    + intros o stark' [Hhead | Hin].
      * injection Hhead as <- <-. repeat split.
      * destruct StarkExWithdrawal_sign as [s |]; [| contradiction].
        pose proof (post_emitted_no_stark this "withdrawals"
          (payload params w (JsString s)) w) as Hno.
        rewrite List.Forall_forall in Hno. now apply Hno in Hin.
    + intros config [Hhead | Hin]; [discriminate |].
      destruct StarkExWithdrawal_sign as [s |] eqn:Hs; [| contradiction].
      apply post_emitted_axios in Hin.
      destruct Hin as (Hm & Hu & Hd). repeat split; [assumption .. |].
      eexists. split; [eassumption |]. right. split; [reflexivity |].
      now exists stark, s.
Qed.

(** [Math.random()] is called at most once in a call, and only when the
    caller gave no usable [clientId]. *)
Lemma after_clientId_random params w :
  random_calls (Private.after_clientId params w) =
    if truthy (Js.get params "clientId") then random_calls w
    else S (random_calls w).
Proof.
  unfold Private.after_clientId, Private.resolveClientId.
  now destruct (truthy (Js.get params "clientId")).
Qed.

Lemma createOrder_random this params positionId w :
  random_calls (snd (Private.createOrder this params positionId w)) =
  random_calls (Private.after_clientId params w).
Proof.
  rewrite createOrder_run. cbv zeta.
  destruct (truthy (Js.get params "signature")).
  - apply request_random.
  - destruct (Private.starkKeyPair this); [| reflexivity].
    destruct StarkExOrder_sign; [| reflexivity].
    unfold Private.post. now rewrite request_random.
Qed.

Lemma createWithdrawal_random this params positionId w :
  random_calls (snd (Private.createWithdrawal this params positionId w)) =
  random_calls (Private.after_clientId params w).
Proof.
  rewrite createWithdrawal_run. cbv zeta.
  destruct (truthy (Js.get params "signature")).
  - apply request_random.
  - destruct (Private.starkKeyPair this); [| reflexivity].
    destruct StarkExWithdrawal_sign; [| reflexivity].
    unfold Private.post. now rewrite request_random.
Qed.

End Assembler.

Section AssemblerClaims.
Context `{Collaborators}.
Implicit Types (this : Private.t) (w : World).
Implicit Types (params : JsObject) (positionId : string).

(** The bodies of [createOrder] and [createWithdrawal], run with
    [signature] omitted on a client without stark key pair, throw the error
    of the method and call no collaborator on the way. *)
Lemma unsigned_body_throws this params positionId w :
  params !! "signature" = None ->
  Private.starkKeyPair this = None ->
  (fst (Private.createOrder this params positionId w) =
     Throw (Error "Order is not signed and client was not initialized with starkPrivateKey") /\
   trace (snd (Private.createOrder this params positionId w)) = trace w) /\
  (fst (Private.createWithdrawal this params positionId w) =
     Throw (Error "Withdrawal is not signed and client was not initialized with starkPrivateKey") /\
   trace (snd (Private.createWithdrawal this params positionId w)) =
     trace w).
Proof.
  intros Hsig Hstark.
  rewrite createOrder_run, createWithdrawal_run. cbv zeta.
  rewrite (get_omitted _ _ Hsig), Hstark. simpl.
  rewrite after_clientId_trace. repeat split.
Qed.

(** C1, as amended. A call to [createOrder] or [createWithdrawal] whose
    params omit [signature], on a client without a stark key pair, does
    not throw at the caller: the methods are [async], so the call returns a
    promise, and that promise is rejected with the error of the method.
    No collaborator is called on the way: nothing is handed to the
    transport, nothing is submitted unsigned. *)
Theorem unsigned_without_stark_key_rejects this params positionId w :
  params !! "signature" = None ->
  Private.starkKeyPair this = None ->
  (fst (Async.createOrder this params positionId w) =
     Returns (Rejected (Error "Order is not signed and client was not initialized with starkPrivateKey")) /\
   trace (snd (Async.createOrder this params positionId w)) = trace w) /\
  (fst (Async.createWithdrawal this params positionId w) =
     Returns (Rejected (Error "Withdrawal is not signed and client was not initialized with starkPrivateKey")) /\
   trace (snd (Async.createWithdrawal this params positionId w)) =
     trace w).
Proof.
  intros Hsig Hstark.
  destruct (unsigned_body_throws this params positionId w Hsig Hstark)
    as [[Horder Htrace] [Hwithdrawal Htrace']].
  unfold Async.createOrder, Async.createWithdrawal, async.
  destruct (Private.createOrder this params positionId w) as [r w1].
  destruct (Private.createWithdrawal this params positionId w) as [r' w2].
  simpl in *. subst r r'. now repeat split.
Qed.

(** C2, as amended. With [signature] omitted and a stark key pair
    configured, the one value handed to the stark signer holds the
    caller's fields plus the injected [clientId], [positionId] and stark
    public key, with [expiresAt] taken from the caller's [expiration];
    for a withdrawal it holds in addition [debitAmount], taken from the
    caller's [amount].  No other field is added or altered. *)
Theorem signable_value_is_params_plus_injected this params positionId w
    stark :
  params !! "signature" = None ->
  Private.starkKeyPair this = Some stark ->
  (exists o rest,
      emitted (Private.createOrder this params positionId) w =
        StarkOrderSign o stark :: rest /\
      Forall (fun e => is_stark_sign e = false) rest /\
      signable_fields [] params o
        (Private.clientIdIn params w) positionId (publicKey stark)) /\
  (exists o rest,
      emitted (Private.createWithdrawal this params positionId) w =
        StarkWithdrawalSign o stark :: rest /\
      Forall (fun e => is_stark_sign e = false) rest /\
      signable_fields ["debitAmount"] params o
        (Private.clientIdIn params w) positionId (publicKey stark) /\
      o !! "debitAmount" = Some (Js.get params "amount")).
Proof.
  intros Hsig Hstark.
  rewrite createOrder_emitted, createWithdrawal_emitted.
  rewrite (get_omitted _ _ Hsig), Hstark. simpl. split.
  - eexists _, _. split; [reflexivity |].
    split; [| apply orderToSign_fields].
    destruct StarkExOrder_sign;
      [apply post_emitted_no_stark | constructor].
  - eexists _, _. split; [reflexivity |].
    split; [| apply withdrawalToSign_fields].
    destruct StarkExWithdrawal_sign;
      [apply post_emitted_no_stark | constructor].
Qed.

(** Once the signature of a call is final, the envelope of the POST is
    signed, and the POST is sent as soon as the API signer returns. *)
Lemma post_is_sent this endpoint (posted : JsObject) w :
  In (ApiRequestSign (post_envelope this endpoint posted w)
        (privateKey (Private.apiKeyPair this)))
     (emitted (Private.post this endpoint posted) w) /\
  forall signed,
    ApiRequest_sign (post_envelope this endpoint posted w)
      (privateKey (Private.apiKeyPair this)) = Ok signed ->
    In (Axios (post_request this endpoint posted w signed))
       (emitted (Private.post this endpoint posted) w).
Proof.
  unfold Private.post, post_envelope, post_request.
  rewrite request_emitted. cbv zeta. split; [now left |].
  intros signed ->. right. now left.
Qed.

(** C5. [createOrder] posts to [orders], and [createWithdrawal] to
    [withdrawals], the caller's params with the finalized [clientId] and
    [signature] set, the signature being the supplied one or the one the
    stark signer just returned: as soon as the signature is final the
    envelope of that POST is signed, and when the API signer returns, the
    POST is handed to the transport; no other request is.  The [clientId]
    of the posted payload is the one inside the value that was signed: it
    is resolved once, before signing, with at most one call of
    [Math.random()], and reused. *)
Theorem posted_payload_is_params_with_clientId_and_signature this params
    positionId w :
  let clientId := Private.clientIdIn params w in
  let key := privateKey (Private.apiKeyPair this) in
  ((forall o stark,
       In (StarkOrderSign o stark)
          (emitted (Private.createOrder this params positionId) w) ->
       o !! "clientId" = Some clientId) /\
   (forall config,
       In (Axios config)
          (emitted (Private.createOrder this params positionId) w) ->
       axiosMethod config = POST /\
       url config = Private.host this ++ "/v3/orders" /\
       exists signature,
         data config =
           Some (<["signature" := signature]>
                   (<["clientId" := clientId]> params)) /\
         order_signature this params positionId w signature) /\
   (forall signature,
       order_signature this params positionId w signature ->
       let posted :=
         <["signature" := signature]> (<["clientId" := clientId]> params) in
       In (ApiRequestSign (post_envelope this "orders" posted w) key)
          (emitted (Private.createOrder this params positionId) w) /\
       forall signed,
         ApiRequest_sign (post_envelope this "orders" posted w) key =
           Ok signed ->
         In (Axios (post_request this "orders" posted w signed))
            (emitted (Private.createOrder this params positionId) w)) /\
   random_calls (snd (Private.createOrder this params positionId w))
     <= S (random_calls w)) /\
  ((forall o stark,
       In (StarkWithdrawalSign o stark)
          (emitted (Private.createWithdrawal this params positionId) w) ->
       o !! "clientId" = Some clientId) /\
   (forall config,
       In (Axios config)
          (emitted (Private.createWithdrawal this params positionId) w) ->
       axiosMethod config = POST /\
       url config = Private.host this ++ "/v3/withdrawals" /\
       exists signature,
         data config =
           Some (<["signature" := signature]>
                   (<["clientId" := clientId]> params)) /\
         withdrawal_signature this params positionId w signature) /\
   (forall signature,
       withdrawal_signature this params positionId w signature ->
       let posted :=
         <["signature" := signature]> (<["clientId" := clientId]> params) in
       In (ApiRequestSign (post_envelope this "withdrawals" posted w) key)
          (emitted (Private.createWithdrawal this params positionId) w) /\
       forall signed,
         ApiRequest_sign (post_envelope this "withdrawals" posted w) key =
           Ok signed ->
         In (Axios (post_request this "withdrawals" posted w signed))
            (emitted (Private.createWithdrawal this params positionId) w)) /\
   random_calls (snd (Private.createWithdrawal this params positionId w))
     <= S (random_calls w)).
Proof.
  cbv zeta.
  destruct (createOrder_events this params positionId w) as [Hso Hpo].
  destruct (createWithdrawal_events this params positionId w) as [Hsw Hpw].
  rewrite createOrder_random, createWithdrawal_random,
    after_clientId_random.
  split; (split; [| split; [| split]]).
  - intros o stark Hin. apply Hso in Hin as (_ & _ & ->).
    apply orderToSign_fields.
  - exact Hpo.
  - intros signature Hfinal. rewrite createOrder_emitted.
    destruct Hfinal as [[Htruthy ->] | (Hfalsy & stark & s & Hstark & Hs & ->)].
    + rewrite Htruthy. apply post_is_sent.
    + rewrite Hfalsy, Hstark. cbv zeta. rewrite Hs.
      destruct (post_is_sent this "orders"
                  (Private.signedPayload params
                     (Private.clientIdIn params w) (JsString s)) w)
        as [Hsigned Hsent].
      split; [now right |]. intros signed Hok. right. now apply Hsent.
  - destruct (truthy (Js.get params "clientId")); lia.
  - intros o stark Hin. apply Hsw in Hin as (_ & _ & ->).
    apply withdrawalToSign_fields.
  - exact Hpw.
  - intros signature Hfinal. rewrite createWithdrawal_emitted.
    destruct Hfinal as [[Htruthy ->] | (Hfalsy & stark & s & Hstark & Hs & ->)].
    + rewrite Htruthy. apply post_is_sent.
    + rewrite Hfalsy, Hstark. cbv zeta. rewrite Hs.
      destruct (post_is_sent this "withdrawals"
                  (Private.signedPayload params
                     (Private.clientIdIn params w) (JsString s)) w)
        as [Hsigned Hsent].
      split; [now right |]. intros signed Hok. right. now apply Hsent.
  - destruct (truthy (Js.get params "clientId")); lia.
Qed.

(** C9, as amended. When the params carry a non-empty [signature], the
    stark signer is never invoked, the call is the POST of the payload
    whether or not the client holds a stark key pair, and the payload
    carries the supplied signature unchanged. *)
Theorem supplied_signature_is_posted_unchanged this params positionId w
    (supplied : string) :
  params !! "signature" = Some (JsString supplied) ->
  supplied <> "" ->
  supplied_signature_is_kept this params positionId w supplied.
Proof.
  intros Hsig Hnonempty. unfold supplied_signature_is_kept. cbv zeta.
  assert (Hget : Js.get params "signature" = JsString supplied)
    by (unfold Js.get; now rewrite Hsig).
  assert (Htruthy : truthy (Js.get params "signature") = true)
    by (rewrite Hget; now destruct supplied).
  split; [apply lookup_set |].
  rewrite createOrder_emitted, createWithdrawal_emitted,
    createOrder_run, createWithdrawal_run.
  cbv zeta. rewrite Htruthy, Hget.
  split; (split; [apply post_emitted_no_stark |]);
    (split; [reflexivity |]);
    intros config Hin; now apply post_emitted_axios in Hin.
Qed.

(** C10, as amended. When the params carry a non-empty [clientId], it is
    the identifier of the call as it stands: no random number is drawn,
    and both the value that is signed and the payload that is posted
    carry it unchanged. *)
Theorem supplied_clientId_is_used_verbatim this params positionId w
    (supplied : string) :
  params !! "clientId" = Some (JsString supplied) ->
  supplied <> "" ->
  supplied_clientId_is_kept this params positionId w supplied.
Proof.
  intros Hid Hnonempty. unfold supplied_clientId_is_kept.
  assert (Hget : Js.get params "clientId" = JsString supplied)
    by (unfold Js.get; now rewrite Hid).
  assert (Htruthy : truthy (Js.get params "clientId") = true)
    by (rewrite Hget; now destruct supplied).
  assert (Hcid : Private.clientIdIn params w = JsString supplied).
  { unfold Private.clientIdIn, Private.resolveClientId.
    now rewrite Htruthy, Hget. }
  assert (Hworld : Private.after_clientId params w = w).
  { unfold Private.after_clientId, Private.resolveClientId.
    now rewrite Htruthy. }
  destruct (createOrder_events this params positionId w) as [Hso Hpo].
  destruct (createWithdrawal_events this params positionId w) as [Hsw Hpw].
  rewrite Hcid in Hso, Hpo, Hsw, Hpw.
  split; [assumption |]. split; [assumption |]. split; split.
  - intros o stark Hin. apply Hso in Hin as (_ & _ & ->).
    apply orderToSign_fields.
  - intros config Hin.
    apply Hpo in Hin as (_ & _ & signature & Hdata & _).
    eexists. split; [eassumption |]. unfold Private.signedPayload.
    now rewrite lookup_set_ne, lookup_set.
  - intros o stark Hin. apply Hsw in Hin as (_ & _ & ->).
    apply withdrawalToSign_fields.
  - intros config Hin.
    apply Hpw in Hin as (_ & _ & signature & Hdata & _).
    eexists. split; [eassumption |]. unfold Private.signedPayload.
    now rewrite lookup_set_ne, lookup_set.
Qed.

End AssemblerClaims.

(** ** Generated client identifiers *)

Section ClientIdentifier.







End ClientIdentifier.

(** ** Capability gating in the facade *)

Section Gating.
Context `{Collaborators}.
Import DydxClient.
Implicit Types (this : DydxClient.t) (l : list Access).

(** On the stub every operation fails, whatever the operation. *)
Lemma invoke_stub {A B} (operation : A -> M B) (w : World) :
  invoke NotSupported operation w = (Throw (Error "not supported"), w).
Proof. reflexivity. Qed.

(** No access changes the credentials the client was built with. *)
Lemma access_credentials this (a : Access) :
  apiPrivateKey (access this a) = apiPrivateKey this /\
  web3 (access this a) = web3 this.
Proof.
  destruct a; unfold access, private, keys, onboarding, eth.
  - destruct (_private this); [now split |].
    destruct (apiPrivateKey this) as [key |] eqn:Hkey;
      [| now rewrite Hkey].
    destruct (key_truthy key); [| now rewrite Hkey].
    destruct Private.new; simpl; now rewrite ?Hkey.
  - destruct (_keys this); [now split |].
    destruct (web3 this) eqn:Hweb3; simpl; now rewrite ?Hweb3.
  - destruct (_onboarding this); [now split |].
    destruct (web3 this) eqn:Hweb3; simpl; now rewrite ?Hweb3.
  - destruct (_eth this); [now split |].
    destruct (web3 this) eqn:Hweb3; simpl; now rewrite ?Hweb3.
Qed.

Lemma accesses_credentials this l :
  apiPrivateKey (accesses this l) = apiPrivateKey this /\
  web3 (accesses this l) = web3 this.
Proof.
  revert this. induction l as [| a l IH]; intros this; [now split |].
  unfold accesses in *. simpl.
  destruct (IH (access this a)) as [-> ->]. apply access_credentials.
Qed.

Lemma access_private_unset this (a : Access) :
  no_api_key this -> _private this = None ->
  _private (access this a) = None.
Proof.
  unfold no_api_key. intros Hkey Hnone.
  destruct a; unfold access, private, keys, onboarding, eth.
  - rewrite Hnone. destruct (apiPrivateKey this) as [key |]; [| assumption].
    now rewrite Hkey.
  - destruct (_keys this); [assumption |]. now destruct (web3 this).
  - destruct (_onboarding this); [assumption |]. now destruct (web3 this).
  - destruct (_eth this); [assumption |]. now destruct (web3 this).
Qed.

Lemma accesses_private_unset this l :
  no_api_key this -> _private this = None ->
  _private (accesses this l) = None.
Proof.
  revert this. induction l as [| a l IH]; intros this Hkey Hnone;
    [assumption |].
  unfold accesses in *. simpl. apply IH.
  - unfold no_api_key. destruct (access_credentials this a) as [-> _].
    exact Hkey.
  - now apply access_private_unset.
Qed.

(** The trading module: built without an API private key, the client
    answers every access of [private], at any point of its life, with the
    stub, on which every operation fails. *)
Lemma private_without_api_key_is_stub host (options : ClientOptions) l
    {B} (operation : Private.t -> M B) (w : World) :
  no_api_key (new host options) ->
  let this := accesses (new host options) l in
  private this = Ok (NotSupported, this) /\
  invoke NotSupported operation w = (Throw (Error "not supported"), w).
Proof.
  intros Hkey this. split; [| reflexivity].
  assert (Hnone : _private this = None)
    by now apply accesses_private_unset.
  assert (Hkey' : no_api_key this).
  { unfold no_api_key, this.
    destruct (accesses_credentials (new host options) l) as [-> _].
    exact Hkey. }
  unfold private. rewrite Hnone. unfold no_api_key in Hkey'.
  destruct (apiPrivateKey this) as [key |]; [| reflexivity].
  now rewrite Hkey'.
Qed.

(** C3, where the code departs from it.  The constructor stores
    [new Web3(provider)], an object, whether or not a provider was
    supplied, so the test [if (this.web3)] of the [keys], [onboarding]
    and [eth] getters always succeeds: at any point of the life of a
    client built without provider they return a module, never the stub. *)
Theorem web3_modules_are_never_stubs host (timeout : option Z)
    (apiKey starkKey : option KeyInput) l :
  let options := mkClientOptions timeout apiKey starkKey None in
  let this := accesses (new host options) l in
  opt_web3Provider options = None /\
  fst (keys (new host options)) = Module_ (mkKeys host (mkWeb3 None)) /\
  fst (onboarding (new host options)) =
    Module_ (mkOnboarding host (mkWeb3 None)) /\
  fst (eth (new host options)) = Module_ (mkEth (mkWeb3 None)) /\
  fst (keys this) <> NotSupported /\
  fst (onboarding this) <> NotSupported /\
  fst (eth this) <> NotSupported.
Proof.
  intros options this.
  destruct (accesses_credentials (new host options) l) as [_ Hweb3].
  fold this in Hweb3. simpl in Hweb3.
  repeat (split; [reflexivity |]).
  unfold keys, onboarding, eth. rewrite Hweb3.
  destruct (_keys this), (_onboarding this), (_eth this);
    repeat split; discriminate.
Qed.

End Gating.

(** ** Concrete runs *)

Section Runs.
Import Sample.
#[local] Existing Instance collaborators.

(** An order without [clientId] and [signature], on a client with both
    key pairs, while [Math.random()] returns 0.42: one stark signature,
    one API signature, one POST. *)
Example createOrder_run_sample :
  emitted (Private.createOrder trader order "7") (world x042) =
    [StarkOrderSign
       (Private.orderToSign order (JsString "42") "7" starkKeys) starkKeys;
     ApiRequestSign
       (Private.envelope trader "/v3/orders" POST timestamp
          (Some (Private.signedPayload order (JsString "42")
                   (JsString "order-signed-by-stark-secret"))))
       "api-secret";
     Axios (posted "orders"
              (Private.signedPayload order (JsString "42")
                 (JsString "order-signed-by-stark-secret")))].
Proof. vm_compute. reflexivity. Qed.

Example get_run_sample :
  emitted (Private.get trader "orders" ∅) (world x042) =
    [ApiRequestSign
       (Private.envelope trader "/v3/orders" GET timestamp None)
       "api-secret";
     Axios (Private.axiosConfig trader GET "/v3/orders" None timestamp
              "request-signed-by-api-secret")].
Proof. vm_compute. reflexivity. Qed.

Lemma unsigned_without_stark_key_rejects_witness :
  order !! "signature" = None /\
  Private.starkKeyPair trader_without_stark = None /\
  fst (Async.createOrder trader_without_stark order "7" (world x042)) =
    Returns (Rejected (Error "Order is not signed and client was not initialized with starkPrivateKey")) /\
  trace (snd (Async.createOrder trader_without_stark order "7"
                (world x042))) = [].
Proof.
  assert (Hsig : order !! "signature" = None) by (vm_compute; reflexivity).
  split; [exact Hsig |]. split; [reflexivity |].
  exact (proj1 (unsigned_without_stark_key_rejects trader_without_stark
                  order "7" (world x042) Hsig eq_refl)).
Defined.

(** C1, as stated, fails: the call does not throw at the caller, it
    returns a promise (which is rejected). *)
Lemma unsigned_call_does_not_throw_synchronously :
  ~ (forall (C : Collaborators) this params positionId w,
        params !! "signature" = None ->
        Private.starkKeyPair this = None ->
        ((exists e,
             fst (Async.createOrder this params positionId w) =
               ThrowsSynchronously e) /\
         trace (snd (Async.createOrder this params positionId w)) =
           trace w) /\
        ((exists e,
             fst (Async.createWithdrawal this params positionId w) =
               ThrowsSynchronously e) /\
         trace (snd (Async.createWithdrawal this params positionId w)) =
           trace w)).
Proof.
  intros Hclaim.
  destruct (Hclaim collaborators trader_without_stark order "7"
              (world x042))
    as [[[e Hthrows] _] _]; [vm_compute; reflexivity | reflexivity |].
  vm_compute in Hthrows. discriminate.
Qed.

Lemma signable_value_is_params_plus_injected_witness :
  exists o rest,
    emitted (Private.createWithdrawal trader withdrawal "7") (world x042) =
      StarkWithdrawalSign o starkKeys :: rest /\
    Forall (fun e => is_stark_sign e = false) rest /\
    signable_fields ["debitAmount"] withdrawal o
      (Private.clientIdIn withdrawal (world x042)) "7" "stark-public" /\
    o !! "debitAmount" = Some (JsString "100").
Proof.
  apply (signable_value_is_params_plus_injected trader withdrawal "7"
           (world x042) starkKeys); vm_compute; reflexivity.
Defined.

Lemma posted_payload_is_params_with_clientId_and_signature_witness :
  In (Axios (posted "orders"
               (Private.signedPayload order (JsString "42")
                  (JsString "order-signed-by-stark-secret"))))
     (emitted (Private.createOrder trader order "7") (world x042)).
Proof.
  destruct (posted_payload_is_params_with_clientId_and_signature trader
              order "7" (world x042)) as [(_ & _ & Hposts & _) _].
  destruct (Hposts (JsString "order-signed-by-stark-secret"))
    as [_ Hsent].
  - right. split; [reflexivity |].
    exists starkKeys, "order-signed-by-stark-secret". repeat split.
  - apply (Hsent "request-signed-by-api-secret"). reflexivity.
Defined.

Lemma request_attaches_three_headers_witness :
  exists ts signature,
    ApiRequest_sign
      (Private.envelope trader "/v3/orders" POST ts (Some order))
      "api-secret" = Ok signature /\
    headers (posted "orders" order) !! "DYDX-SIGNATURE" = Some signature /\
    headers (posted "orders" order) !! "DYDX-TIMESTAMP" = Some ts /\
    size (headers (posted "orders" order)) = 3.
Proof.
  destruct (request_attaches_three_headers trader POST "orders"
              (Some order) (world x042) (posted "orders" order))
    as (ts & signature & _ & Hsign & _ & Hs & _ & Ht & _ & Hsize).
  - vm_compute. right. left. reflexivity.
  - exists ts, signature. repeat split; assumption.
Defined.

Lemma sign_is_deterministic_witness :
  Private.apiKeyPair trader = Private.apiKeyPair other_trader /\
  fst (Private.sign trader "/v3/orders" POST timestamp (Some order)
         (world x042)) =
  fst (Private.sign other_trader "/v3/orders" POST timestamp (Some order)
         (world Zero)).
Proof.
  split; [reflexivity |].
  exact (proj1 (sign_is_deterministic trader other_trader (world x042)
                  (world Zero) "/v3/orders" POST timestamp (Some order)
                  eq_refl)).
Defined.

Lemma supplied_signature_is_posted_unchanged_witness :
  supplied_signature_is_kept trader_without_stark presigned_order "7"
    (world x042) "0a1b2c".
Proof.
  apply supplied_signature_is_posted_unchanged.
  - vm_compute. reflexivity.
  - discriminate.
Defined.

Lemma supplied_clientId_is_used_verbatim_witness :
  supplied_clientId_is_kept trader order_with_clientId "7" (world x042)
    "1234".
Proof.
  apply supplied_clientId_is_used_verbatim.
  - vm_compute. reflexivity.
  - discriminate.
Defined.

(** C2, as stated, fails for withdrawals: with the stated fields only,
    [debitAmount] would be absent from the signed value as it is from the
    params, but [createWithdrawal] sets it. *)
Lemma withdrawal_signable_adds_debitAmount :
  ~ (forall (C : Collaborators) this params positionId w stark,
        params !! "signature" = None ->
        Private.starkKeyPair this = Some stark ->
        signed_value_has_fields [] [] this params positionId w stark).
Proof.
  intros Hclaim.
  destruct (Hclaim collaborators trader withdrawal "7" (world x042)
              starkKeys)
    as [_ (o & rest & Hemit & _ & Hfields)];
    [vm_compute; reflexivity | reflexivity |].
  rewrite createWithdrawal_emitted in Hemit.
  change (truthy (Js.get withdrawal "signature")) with false in Hemit.
  cbv iota beta zeta in Hemit. simpl Private.starkKeyPair in Hemit.
  injection Hemit as <- _.
  destruct Hfields as (_ & _ & _ & _ & Hother).
  specialize (Hother "debitAmount").
  rewrite !not_elem_of_cons in Hother.
  assert (Habsent :
    Private.withdrawalToSign withdrawal
      (Private.clientIdIn withdrawal (world x042)) "7" starkKeys
      !! "debitAmount" = withdrawal !! "debitAmount").
  { apply Hother. repeat split; try discriminate. apply not_elem_of_nil. }
  vm_compute in Habsent. discriminate.
Qed.

(** C9, as stated, fails for the empty string: an empty [signature] is
    falsy, so the call signs locally, and on a client without stark key
    pair it throws instead of posting. *)
Lemma empty_signature_is_not_kept :
  ~ (forall (C : Collaborators) this params positionId w supplied,
        params !! "signature" = Some (JsString supplied) ->
        supplied_signature_is_kept this params positionId w supplied).
Proof.
  intros Hclaim.
  destruct (Hclaim collaborators trader_without_stark
              order_with_empty_signature "7" (world x042) "")
    as (_ & (_ & Hrun & _) & _); [vm_compute; reflexivity |].
  apply (f_equal fst) in Hrun. vm_compute in Hrun. discriminate.
Qed.

(** C10, as stated, fails for the empty string: an empty [clientId] is
    falsy, so an identifier is generated in its place. *)
Lemma empty_clientId_is_regenerated :
  ~ (forall (C : Collaborators) this params positionId w supplied,
        params !! "clientId" = Some (JsString supplied) ->
        supplied_clientId_is_kept this params positionId w supplied).
Proof.
  intros Hclaim.
  destruct (Hclaim collaborators trader order_with_empty_clientId "7"
              (world x042) "")
    as (Hid & _); [vm_compute; reflexivity |].
  vm_compute in Hid. discriminate.
Qed.

Example numeral_42 : numeral_without_leading_zero "42" = true.
Proof. reflexivity. Qed.

Example randomClientId_005 : Private.randomClientId x005 = "5".
Proof. reflexivity. Qed.

(** C4, where the code departs from it.  When [Math.random()] returns 0
    the generated identifier is the empty string, and when it returns a
    number below 1e-6, printed in exponent notation, the identifier keeps
    the exponent: for 2^-20 it is [5367431640625e-7].  Neither is a
    numeral, and both are signed and posted. *)
Theorem generated_clientId_is_not_always_a_numeral :
  (unit_range Zero /\ Private.randomClientId Zero = "" /\
   numeral_without_leading_zero (Private.randomClientId Zero) = false) /\
  (unit_range x2pow_minus20 /\
   Number_toString x2pow_minus20 = "9.5367431640625e-7" /\
   Private.randomClientId x2pow_minus20 = "5367431640625e-7" /\
   numeral_without_leading_zero (Private.randomClientId x2pow_minus20) =
     false) /\
  order !! "clientId" = None /\
  withdrawal !! "clientId" = None /\
  In (Axios (posted "orders"
               (Private.signedPayload order (JsString "")
                  (JsString "order-signed-by-stark-secret"))))
     (emitted (Private.createOrder trader order "7") (world Zero)) /\
  In (Axios (posted "withdrawals"
               (Private.signedPayload withdrawal
                  (JsString "5367431640625e-7")
                  (JsString "withdrawal-signed-by-stark-secret"))))
     (emitted (Private.createWithdrawal trader withdrawal "7")
        (world x2pow_minus20)).
Proof.
  split; [repeat split |]. split.
  - split; [| repeat split]. unfold x2pow_minus20, unit_range.
    split; [lia |]. split; [repeat constructor; lia |]. split.
    + eexists _, _. split; [reflexivity | discriminate].
    + exists [9; 5; 3; 6; 7; 4; 3; 1; 6; 4; 0; 6; 2], 5.
      split; [reflexivity | discriminate].
  - split; [vm_compute; reflexivity |].
    split; [vm_compute; reflexivity |].
    split; vm_compute; right; right; left; reflexivity.
Qed.

End Runs.

(** * Further properties of the code *)

(** ** Every public method of [Private] *)

Section Calls.
Context `{Collaborators}.
Implicit Types (this : Private.t) (w : World) (call : Call).
Implicit Types (d : option JsObject).

(** One run of [request], by the outcome of the API signer. *)
Lemma request_cases this method endpoint d w :
  let timestamp := clock_source w (clock_reads w) in
  let env :=
    Private.envelope this ("/v3/" ++ endpoint) method timestamp d in
  let key := privateKey (Private.apiKeyPair this) in
  (exists e,
      ApiRequest_sign env key = Throw e /\
      emitted (Private.request this method endpoint d) w =
        [ApiRequestSign env key] /\
      fst (Private.request this method endpoint d w) = Throw e) \/
  (exists signature,
      let config :=
        Private.axiosConfig this method ("/v3/" ++ endpoint) d timestamp
          signature in
      ApiRequest_sign env key = Ok signature /\
      emitted (Private.request this method endpoint d) w =
        [ApiRequestSign env key; Axios config] /\
      fst (Private.request this method endpoint d w) = axiosRequest config).
Proof.
  cbv zeta. rewrite request_emitted, request_run. cbv zeta.
  destruct ApiRequest_sign as [signature | e].
  - right. now exists signature.
  - left. now exists e.
Qed.

Lemma request_clock this method endpoint d w :
  clock_reads (snd (Private.request this method endpoint d w)) =
  S (clock_reads w).
Proof. rewrite request_run. now destruct ApiRequest_sign. Qed.

Lemma request_outcome_clock this method endpoint d w w' :
  clock_source w' = clock_source w -> clock_reads w' = clock_reads w ->
  fst (Private.request this method endpoint d w') =
  fst (Private.request this method endpoint d w).
Proof.
  intros Hsource Hreads. rewrite !request_run. rewrite Hsource, Hreads.
  now destruct ApiRequest_sign.
Qed.

(** Every method either stops before any request, after at most one stark
    signature, or goes on with exactly one [request]. *)
Lemma perform_shape this call w :
  exists (before : list Event),
    (before = [] \/
     is_signed_action call = true /\
     exists e, before = [e] /\ is_stark_sign e = true) /\
    ((exists e,
         emitted (perform this call) w = before /\
         fst (perform this call w) = Throw e /\
         is_signed_action call = true /\
         clock_reads (snd (perform this call w)) = clock_reads w) \/
     (exists method endpoint d,
         emitted (perform this call) w =
           (before ++ emitted (Private.request this method endpoint d) w)%list
         /\
         fst (perform this call w) =
           fst (Private.request this method endpoint d w) /\
         clock_reads (snd (perform this call w)) = S (clock_reads w) /\
         (d = None <-> method = GET \/ method = DELETE) /\
         (is_query call = true -> method = GET))).
Proof.
  assert (Hplain : forall method endpoint d,
    (d = None <-> method = GET \/ method = DELETE) ->
    (is_query call = true -> method = GET) ->
    perform this call = Private.request this method endpoint d ->
    exists (before : list Event),
      (before = [] \/
       is_signed_action call = true /\
       exists e, before = [e] /\ is_stark_sign e = true) /\
      ((exists e,
           emitted (perform this call) w = before /\
           fst (perform this call w) = Throw e /\
           is_signed_action call = true /\
           clock_reads (snd (perform this call w)) = clock_reads w) \/
       (exists method endpoint d,
           emitted (perform this call) w =
             (before ++
              emitted (Private.request this method endpoint d) w)%list /\
           fst (perform this call w) =
             fst (Private.request this method endpoint d w) /\
           clock_reads (snd (perform this call w)) = S (clock_reads w) /\
           (d = None <-> method = GET \/ method = DELETE) /\
           (is_query call = true -> method = GET)))).
  { intros method endpoint d Hbody Hquery Hrun. exists []. split; [now left |].
    right. exists method, endpoint, d. rewrite Hrun.
    split; [reflexivity |]. split; [reflexivity |].
    split; [apply request_clock |]. now split. }
  destruct call;
    try (eapply (Hplain GET _ None);
         [split; [now left | reflexivity] | reflexivity | reflexivity]);
    try (eapply (Hplain DELETE _ None);
         [split; [now right | reflexivity] | discriminate | reflexivity]);
    try (eapply (Hplain POST _ (Some _));
         [split; [discriminate | intros [|]; discriminate]
         | discriminate | reflexivity]);
    try (eapply (Hplain PUT _ (Some _));
         [split; [discriminate | intros [|]; discriminate]
         | discriminate | reflexivity]);
    clear Hplain.
  - (* createOrder *)
    pose proof (after_clientId_trace params w) as Htrace.
    destruct (after_clientId_clock params w) as [Hsource Hreads].
    simpl perform. rewrite createOrder_emitted, createOrder_run. cbv zeta.
    destruct (truthy (Js.get params "signature")).
    + exists []. split; [now left |]. right.
      eexists POST, "orders", (Some _). unfold Private.post.
      split; [reflexivity |].
      split; [now apply request_outcome_clock |].
      split; [now rewrite request_clock, Hreads |].
      split; [split; [discriminate | intros [|]; discriminate]
             | discriminate].
    + destruct (Private.starkKeyPair this) as [stark |].
      * exists [StarkOrderSign
                  (Private.orderToSign params (Private.clientIdIn params w)
                     positionId stark) stark].
        split; [right; split; [reflexivity |]; now eexists |].
        destruct StarkExOrder_sign as [s | e].
        -- right. eexists POST, "orders", (Some _). unfold Private.post.
           split; [reflexivity |].
           split; [now apply request_outcome_clock |].
           split; [now rewrite request_clock; simpl; rewrite Hreads |].
           split; [split; [discriminate | intros [|]; discriminate]
                  | discriminate].
        -- left. exists e. simpl. now rewrite Hreads.
      * exists []. split; [now left |]. left. eexists. simpl.
        now rewrite Hreads.
  - (* createWithdrawal *)
    pose proof (after_clientId_trace params w) as Htrace.
    destruct (after_clientId_clock params w) as [Hsource Hreads].
    simpl perform. rewrite createWithdrawal_emitted, createWithdrawal_run.
    cbv zeta.
    destruct (truthy (Js.get params "signature")).
    + exists []. split; [now left |]. right.
      eexists POST, "withdrawals", (Some _). unfold Private.post.
      split; [reflexivity |].
      split; [now apply request_outcome_clock |].
      split; [now rewrite request_clock, Hreads |].
      split; [split; [discriminate | intros [|]; discriminate]
             | discriminate].
    + destruct (Private.starkKeyPair this) as [stark |].
      * exists [StarkWithdrawalSign
                  (Private.withdrawalToSign params
                     (Private.clientIdIn params w) positionId stark) stark].
        split; [right; split; [reflexivity |]; now eexists |].
        destruct StarkExWithdrawal_sign as [s | e].
        -- right. eexists POST, "withdrawals", (Some _). unfold Private.post.
           split; [reflexivity |].
           split; [now apply request_outcome_clock |].
           split; [now rewrite request_clock; simpl; rewrite Hreads |].
           split; [split; [discriminate | intros [|]; discriminate]
                  | discriminate].
        -- left. exists e. simpl. now rewrite Hreads.
      * exists []. split; [now left |]. left. eexists. simpl.
        now rewrite Hreads.
Qed.

(** The events before the request, if any, are stark signatures. *)
Lemma before_is_stark call (before : list Event) :
  (before = [] \/
   is_signed_action call = true /\
   exists e, before = [e] /\ is_stark_sign e = true) ->
  forall e, In e before -> is_stark_sign e = true.
Proof.
  intros [-> | (_ & e' & -> & He')] e; simpl; [contradiction |].
  now intros [<- | []].
Qed.

End Calls.

Section CallProperties.
Context `{Collaborators}.
Implicit Types (this : Private.t) (w : World) (call : Call).

(** X1. Whatever the method and its outcome, one call signs at most one
    request envelope, hands at most one request to the transport (and none
    that was not signed), and invokes the stark signer at most once, which
    only [createOrder] and [createWithdrawal] ever do: nothing is retried. *)
Theorem every_call_sends_at_most_once this call w :
  let evs := emitted (perform this call) w in
  api_signatures evs <= 1 /\
  transport_calls evs <= api_signatures evs /\
  stark_signatures evs <= 1 /\
  (is_signed_action call = false -> stark_signatures evs = 0).
Proof.
  cbv zeta. unfold api_signatures, transport_calls, stark_signatures.
  destruct (perform_shape this call w)
    as (before & Hbefore & [(e & -> & _) | (m & ep & d & -> & _)]).
  - destruct Hbefore as [-> | (Hsigned & e' & -> & He')]; simpl.
    + repeat (split; [lia |]). reflexivity.
    + rewrite He'. destruct e'; try discriminate; simpl;
        (repeat (split; [lia |])); congruence.
  - destruct (request_cases this m ep d w)
      as [(e & _ & -> & _) | (signature & _ & -> & _)];
      (destruct Hbefore as [-> | (Hsigned & e' & -> & He')]; simpl;
       [ repeat (split; [lia |]); reflexivity
       | rewrite He'; destruct e'; try discriminate; simpl;
         (repeat (split; [lia |])); congruence ]).
Qed.

(** X2. Whenever a method hands a request to the transport, what the
    method returns or throws is what the transport returned or rejected
    with for that request, unchanged. *)
Theorem outcome_is_transport_outcome this call w config :
  In (Axios config) (emitted (perform this call) w) ->
  fst (perform this call w) = axiosRequest config.
Proof.
  destruct (perform_shape this call w)
    as (before & Hbefore & [(e & -> & _) | (m & ep & d & -> & -> & _)]);
    pose proof (before_is_stark call before Hbefore) as Hstark.
  - intros Hin. now apply Hstark in Hin.
  - intros Hin. apply in_app_or in Hin as [Hin | Hin];
      [now apply Hstark in Hin |].
    destruct (request_cases this m ep d w)
      as [(e & _ & Hemit & _) | (signature & _ & Hemit & Hout)];
      rewrite Hemit in Hin; simpl in Hin.
    + destruct Hin as [Heq | []]. discriminate.
    + destruct Hin as [Heq | [Heq | []]]; [discriminate |].
      injection Heq as <-. exact Hout.
Qed.

(** X3. Every request a method hands to the transport was signed as it is
    sent: the envelope given to the API signer just before holds the path
    of the URL after the host, the method, the JSON serialization of the
    body (the empty string without body), the API public key of the header
    and, as timestamp, the reading of the clock made by this call; the
    [DYDX-SIGNATURE] header is what the signer returned for it. *)
Theorem sent_request_matches_signed_envelope this call w config :
  In (Axios config) (emitted (perform this call) w) ->
  exists env signature,
    In (ApiRequestSign env (privateKey (Private.apiKeyPair this)))
       (emitted (perform this call) w) /\
    signed_as_sent (Private.host this) env config /\
    expiresAt env = clock_source w (clock_reads w) /\
    apiPublicKey env = publicKey (Private.apiKeyPair this) /\
    ApiRequest_sign env (privateKey (Private.apiKeyPair this)) =
      Ok signature /\
    headers config !! "DYDX-SIGNATURE" = Some signature.
Proof.
  destruct (perform_shape this call w)
    as (before & Hbefore & [(e & -> & _) | (m & ep & d & -> & _)]);
    pose proof (before_is_stark call before Hbefore) as Hstark.
  - intros Hin. now apply Hstark in Hin.
  - intros Hin. apply in_app_or in Hin as [Hin | Hin];
      [now apply Hstark in Hin |].
    destruct (request_cases this m ep d w)
      as [(e & _ & Hemit & _) | (signature & Hsign & Hemit & _)];
      rewrite Hemit in *; simpl in Hin.
    + destruct Hin as [Heq | []]. discriminate.
    + destruct Hin as [Heq | [Heq | []]]; [discriminate |].
      injection Heq as <-. eexists _, signature.
      split; [apply in_or_app; right; now left |].
      split; [| split; [reflexivity |]; split; [reflexivity |];
                split; [exact Hsign | apply lookup_insert_eq]].
      unfold signed_as_sent, Private.axiosConfig, Private.envelope; simpl.
      split; [reflexivity |]. split; [reflexivity |].
      split; [reflexivity |]. split.
      * now rewrite lookup_insert_ne, lookup_insert_eq.
      * now rewrite !lookup_insert_ne, lookup_singleton_eq.
Qed.

(** X4. A request that reaches the transport has no body exactly when its
    method is GET or DELETE, and every [get...] method sends a GET: reads
    never carry a body and never use a modifying verb. *)
Theorem body_only_with_post_and_put this call w config :
  In (Axios config) (emitted (perform this call) w) ->
  (data config = None <->
   axiosMethod config = GET \/ axiosMethod config = DELETE) /\
  (is_query call = true -> axiosMethod config = GET).
Proof.
  destruct (perform_shape this call w)
    as (before & Hbefore &
        [(e & -> & _) | (m & ep & d & -> & _ & _ & Hbody & Hquery)]);
    pose proof (before_is_stark call before Hbefore) as Hstark.
  - intros Hin. now apply Hstark in Hin.
  - intros Hin. apply in_app_or in Hin as [Hin | Hin];
      [now apply Hstark in Hin |].
    destruct (request_cases this m ep d w)
      as [(e & _ & Hemit & _) | (signature & _ & Hemit & _)];
      rewrite Hemit in Hin; simpl in Hin.
    + destruct Hin as [Heq | []]. discriminate.
    + destruct Hin as [Heq | [Heq | []]]; [discriminate |].
      injection Heq as <-. simpl. now split.
Qed.

(** X5. When the API signer rejects the envelope of a call, the method
    throws that very error and nothing is handed to the transport. *)
Theorem api_signing_failure_sends_nothing this call w env key e :
  In (ApiRequestSign env key) (emitted (perform this call) w) ->
  ApiRequest_sign env key = Throw e ->
  fst (perform this call w) = Throw e /\
  transport_calls (emitted (perform this call) w) = 0.
Proof.
  destruct (perform_shape this call w)
    as (before & Hbefore & [(e0 & -> & _) | (m & ep & d & -> & -> & _)]);
    pose proof (before_is_stark call before Hbefore) as Hstark.
  - intros Hin. now apply Hstark in Hin.
  - intros Hin Hthrow. apply in_app_or in Hin as [Hin | Hin];
      [now apply Hstark in Hin |].
    destruct (request_cases this m ep d w)
      as [(e1 & Hsign & Hemit & Hout) | (signature & Hsign & Hemit & _)];
      rewrite Hemit in *; simpl in Hin.
    + destruct Hin as [Heq | []]. injection Heq as <- <-.
      rewrite Hsign in Hthrow. injection Hthrow as ->.
      split; [assumption |].
      destruct Hbefore as [-> | (_ & e' & -> & He')]; [reflexivity |].
      unfold transport_calls. simpl. now destruct e'.
    + destruct Hin as [Heq | [Heq | []]]; [| discriminate].
      injection Heq as <- <-. congruence.
Qed.

(** X6. A call draws a random number exactly when it is a [createOrder] or
    a [createWithdrawal] whose params carry no usable [clientId], and then
    exactly one, whether or not the call fails afterwards; it reads the
    clock exactly once for each envelope it signs, so a call that fails
    before signing an envelope does not read the clock. *)
Theorem random_and_clock_use this call w :
  random_calls (snd (perform this call w)) =
    (if lacks_clientId call then S (random_calls w) else random_calls w) /\
  clock_reads (snd (perform this call w)) =
    clock_reads w + api_signatures (emitted (perform this call) w).
Proof.
  split.
  - destruct call; simpl; try apply request_random.
    + rewrite createOrder_random, after_clientId_random.
      now destruct (truthy (Js.get params "clientId")).
    + rewrite createWithdrawal_random, after_clientId_random.
      now destruct (truthy (Js.get params "clientId")).
  - destruct (perform_shape this call w)
      as (before & Hbefore &
          [(e & -> & _ & _ & ->) | (m & ep & d & -> & _ & -> & _)]).
    + destruct Hbefore as [-> | (_ & e' & -> & He')];
        unfold api_signatures; simpl; [lia |].
      destruct e'; try discriminate; simpl; lia.
    + destruct (request_cases this m ep d w)
        as [(e & _ & -> & _) | (signature & _ & -> & _)];
        (destruct Hbefore as [-> | (_ & e' & -> & He')];
         unfold api_signatures; simpl; [lia |];
         destruct e'; try discriminate; simpl; lia).
Qed.

End CallProperties.

(** ** More on signed actions and on single methods *)

Lemma assoc_set_same (k : string) (v : JsValue)
    (l : list (string * JsValue)) :
  assoc_lookup k l = Some v -> assoc_set k v l = l.
Proof.
  induction l as [| [k' v'] l IH]; simpl; [discriminate |].
  destruct (String.eqb k' k); [now intros [= ->] |].
  intros Hl. now rewrite IH.
Qed.

(** Setting a property to the value it has changes nothing. *)
Lemma set_same (o : JsObject) (k : string) (v : JsValue) :
  o !! k = Some v -> <[k := v]> o = o.
Proof.
  destruct o as [l]. unfold lookup, JsObject_lookup, insert, JsObject_insert.
  simpl. intros Hl. now rewrite assoc_set_same.
Qed.


Section SignedActions.
Context `{Collaborators}.
Implicit Types (this : Private.t) (w : World).
Implicit Types (params : JsObject) (positionId : string).

(** X7. When the stark signer rejects the value of an order or of a
    withdrawal, the method throws that very error right after that one
    invocation: no envelope is signed and nothing reaches the transport. *)
Theorem stark_signing_failure_sends_nothing this params positionId w stark :
  truthy (Js.get params "signature") = false ->
  Private.starkKeyPair this = Some stark ->
  let clientId := Private.clientIdIn params w in
  (forall e,
      StarkExOrder_sign
        (Private.orderToSign params clientId positionId stark) stark =
        Throw e ->
      fst (Private.createOrder this params positionId w) = Throw e /\
      emitted (Private.createOrder this params positionId) w =
        [StarkOrderSign
           (Private.orderToSign params clientId positionId stark) stark]) /\
  (forall e,
      StarkExWithdrawal_sign
        (Private.withdrawalToSign params clientId positionId stark) stark =
        Throw e ->
      fst (Private.createWithdrawal this params positionId w) = Throw e /\
      emitted (Private.createWithdrawal this params positionId) w =
        [StarkWithdrawalSign
           (Private.withdrawalToSign params clientId positionId stark)
           stark]).
Proof.
  intros Hsig Hstark. cbv zeta.
  rewrite createOrder_emitted, createOrder_run,
    createWithdrawal_emitted, createWithdrawal_run.
  cbv zeta. rewrite Hsig, Hstark.
  split; intros e Hthrow; now rewrite Hthrow.
Qed.

(** X8. Params that carry both a usable [clientId] and a usable
    [signature] are posted as they are: the body of the request is the
    caller's object, property for property and in the same order, no random
    number is drawn and the stark signer is not invoked. *)
Theorem complete_params_are_posted_as_they_are this params positionId w
    (clientId signature : JsValue) :
  params !! "clientId" = Some clientId -> truthy clientId = true ->
  params !! "signature" = Some signature -> truthy signature = true ->
  (forall config,
      In (Axios config)
         (emitted (Private.createOrder this params positionId) w) ->
      data config = Some params) /\
  (forall config,
      In (Axios config)
         (emitted (Private.createWithdrawal this params positionId) w) ->
      data config = Some params) /\
  stark_signatures
    (emitted (Private.createOrder this params positionId) w) = 0 /\
  stark_signatures
    (emitted (Private.createWithdrawal this params positionId) w) = 0 /\
  random_calls (snd (Private.createOrder this params positionId w)) =
    random_calls w /\
  random_calls (snd (Private.createWithdrawal this params positionId w)) =
    random_calls w.
Proof.
  intros Hid Hidt Hsig Hsigt.
  assert (Hgetid : Js.get params "clientId" = clientId)
    by (unfold Js.get; now rewrite Hid).
  assert (Hgetsig : Js.get params "signature" = signature)
    by (unfold Js.get; now rewrite Hsig).
  assert (Hcid : Private.clientIdIn params w = clientId).
  { unfold Private.clientIdIn, Private.resolveClientId.
    now rewrite Hgetid, Hidt. }
  assert (Hsame : Private.signedPayload params clientId signature = params).
  { unfold Private.signedPayload.
    rewrite (set_same params "clientId" clientId Hid).
    now apply set_same. }
  rewrite createOrder_random, createWithdrawal_random,
    after_clientId_random, Hgetid, Hidt.
  rewrite createOrder_emitted, createWithdrawal_emitted, Hgetsig, Hsigt,
    Hcid, Hsame.
  assert (Hnone : forall endpoint,
    stark_signatures (emitted (Private.post this endpoint params) w) = 0).
  { intros endpoint. unfold Private.post, stark_signatures.
    rewrite request_emitted. now destruct ApiRequest_sign. }
  split; [intros config Hin; now apply post_emitted_axios in Hin |].
  split; [intros config Hin; now apply post_emitted_axios in Hin |].
  rewrite !Hnone. repeat (split; [reflexivity |]). reflexivity.
Qed.

(** X9. [cancelAllOrders] with the empty string as market is the call that
    cancels the orders of every market: an empty market is dropped like an
    absent one, only a non-empty one becomes the [market] parameter of the
    DELETE. *)
Theorem cancelAllOrders_empty_market_is_no_market this (market : string) :
  Private.cancelAllOrders this (Some "") =
    Private.cancelAllOrders this None /\
  Private.cancelAllOrders this None = Private.delete this "orders" ∅ /\
  (market <> "" ->
   Private.cancelAllOrders this (Some market) =
     Private.delete this "orders" (Obj [("market", JsString market)])).
Proof.
  split; [reflexivity |]. split; [reflexivity |].
  intros Hmarket. unfold Private.cancelAllOrders.
  now destruct market.
Qed.

(** X10. Identifiers are spliced into the path as they are: looking an order
    up by the client identifier [c] is the same call as looking it up by
    the order identifier [client/c], and a given order is read and
    cancelled under one and the same path. *)
Theorem order_identifiers_are_not_escaped this (c orderId : string) w :
  Private.getOrderByClientId this c =
    Private.getOrderById this ("client/" ++ c) /\
  exists read cancel rest rest',
    emitted (Private.getOrderById this orderId) w =
      ApiRequestSign read (privateKey (Private.apiKeyPair this)) :: rest /\
    emitted (Private.cancelOrder this orderId) w =
      ApiRequestSign cancel (privateKey (Private.apiKeyPair this)) :: rest' /\
    requestPath read = requestPath cancel /\
    method read = ApiGET /\ method cancel = ApiDELETE.
Proof.
  split; [reflexivity |].
  unfold Private.getOrderById, Private.cancelOrder, Private.get,
    Private.delete.
  rewrite !request_emitted. eexists _, _, _, _.
  split; [reflexivity |]. split; [reflexivity |]. repeat split.
Qed.


End SignedActions.

(** ** The constructor of [Private] *)

Section Construction.
Context `{Collaborators}.

(** X13. A [Private] that was constructed keeps the host, holds the key
    pair derived from the API private key, and holds a stark key pair
    exactly when a non-empty stark private key (or a key pair object) was
    passed, the one derived from it: an empty string counts as no key. *)
Theorem constructed_private_holds_derived_keys (host : string)
    (apiPrivateKey : KeyInput) (starkPrivateKey : option KeyInput)
    (this : Private.t) :
  Private.new host apiPrivateKey starkPrivateKey = Ok this ->
  Private.host this = host /\
  asKeyPair apiPrivateKey = Ok (Private.apiKeyPair this) /\
  match Private.starkKeyPair this with
  | Some stark =>
      exists key,
        starkPrivateKey = Some key /\ key_truthy key = true /\
        asKeyPair key = Ok stark
  | None =>
      starkPrivateKey = None \/
      exists key, starkPrivateKey = Some key /\ key_truthy key = false
  end.
Proof.
  unfold Private.new.
  destruct (asKeyPair apiPrivateKey) as [api |]; [| discriminate].
  destruct starkPrivateKey as [key |].
  - destruct (key_truthy key) eqn:Htruthy.
    + destruct (asKeyPair key) as [stark |] eqn:Hstark; [| discriminate].
      intros [= <-]. simpl. repeat split. now exists key.
    + intros [= <-]. simpl. repeat split. right. now exists key.
  - intros [= <-]. simpl. repeat split. now left.
Qed.

(** X14. The constructor throws exactly when a key derivation it performs
    throws, with that error: the derivation of the API key pair, or, after
    it succeeded, the derivation of a non-empty stark key.  An empty stark
    key is never derived. *)
Theorem constructor_throws_what_derivation_throws (host : string)
    (apiPrivateKey : KeyInput) (starkPrivateKey : option KeyInput)
    (e : Exn) :
  Private.new host apiPrivateKey starkPrivateKey = Throw e <->
  asKeyPair apiPrivateKey = Throw e \/
  exists api key,
    asKeyPair apiPrivateKey = Ok api /\
    starkPrivateKey = Some key /\ key_truthy key = true /\
    asKeyPair key = Throw e.
Proof.
  unfold Private.new. split.
  - destruct (asKeyPair apiPrivateKey) as [api |]; [| intros [= ->]; now left].
    destruct starkPrivateKey as [key |]; [| discriminate].
    destruct (key_truthy key) eqn:Htruthy; [| discriminate].
    destruct (asKeyPair key) as [stark |] eqn:Hstark; [discriminate |].
    intros [= ->]. right. now exists api, key.
  - intros [-> | (api & key & -> & -> & -> & ->)]; reflexivity.
Qed.

End Construction.

(** ** The life of a client *)

Section Lifetime.
Context `{Collaborators}.
Import DydxClient.
Implicit Types (this : DydxClient.t) (l : list Access).

Lemma accesses_cons this (a : Access) l :
  accesses this (a :: l) = accesses (access this a) l.
Proof. reflexivity. Qed.

(** What an access never touches. *)
Lemma access_construction_data this (a : Access) :
  host (access this a) = host this /\
  apiTimeout (access this a) = apiTimeout this /\
  starkPrivateKey (access this a) = starkPrivateKey this /\
  _public (access this a) = _public this.
Proof.
  destruct a; unfold access, private, keys, onboarding, eth.
  - destruct (_private this); [now repeat split |].
    destruct (apiPrivateKey this) as [key |]; [| now repeat split].
    destruct (key_truthy key); [| now repeat split].
    destruct Private.new; now repeat split.
  - destruct (_keys this); [now repeat split |].
    destruct (web3 this); now repeat split.
  - destruct (_onboarding this); [now repeat split |].
    destruct (web3 this); now repeat split.
  - destruct (_eth this); [now repeat split |].
    destruct (web3 this); now repeat split.
Qed.

(** X15. The data a client was constructed with never changes: after any
    sequence of accesses the host, the timeout, both private keys and the
    [web3] instance are those of the constructor, and [public] is the
    module built over the host at construction. *)
Theorem accesses_keep_construction_data (h : string)
    (options : ClientOptions) l :
  let this := accesses (new h options) l in
  host this = h /\
  apiTimeout this = opt_apiTimeout options /\
  apiPrivateKey this = opt_apiPrivateKey options /\
  starkPrivateKey this = opt_starkPrivateKey options /\
  web3 this = Some (mkWeb3 (opt_web3Provider options)) /\
  public this = mkPublic h.
Proof.
  cbv zeta. unfold public.
  destruct (accesses_credentials (new h options) l) as [-> ->].
  assert (Hdata : forall this,
    host (accesses this l) = host this /\
    apiTimeout (accesses this l) = apiTimeout this /\
    starkPrivateKey (accesses this l) = starkPrivateKey this /\
    _public (accesses this l) = _public this).
  { induction l as [| a l IH]; intros this; [now repeat split |].
    rewrite accesses_cons.
    destruct (IH (access this a)) as (-> & -> & -> & ->).
    apply access_construction_data. }
  destruct (Hdata (new h options)) as (-> & -> & -> & ->).
  now repeat split.
Qed.


Lemma access_memo_invariant (h : string) (w3 : Web3) this (a : Access) :
  memo_invariant h w3 this -> memo_invariant h w3 (access this a).
Proof.
  unfold memo_invariant. intros (Hh & Hw & Hk & Ho & He).
  destruct a; unfold access, private, keys, onboarding, eth.
  - destruct (_private this) eqn:Hmemo; [now repeat split |].
    destruct (apiPrivateKey this) as [key |]; [| now repeat split].
    destruct (key_truthy key); [| now repeat split].
    destruct Private.new; now repeat split.
  - destruct (_keys this) eqn:Hmemo; simpl.
    + rewrite Hmemo. now repeat split.
    + rewrite Hw. simpl. rewrite Hh.
      repeat split; try assumption. now right.
  - destruct (_onboarding this) eqn:Hmemo; simpl.
    + rewrite Hmemo. now repeat split.
    + rewrite Hw. simpl. rewrite Hh.
      repeat split; try assumption. now right.
  - destruct (_eth this) eqn:Hmemo; simpl.
    + rewrite Hmemo. now repeat split.
    + rewrite Hw. simpl.
      repeat split; try assumption. now right.
Qed.

Lemma accesses_memo_invariant (h : string) (w3 : Web3) this l :
  memo_invariant h w3 this -> memo_invariant h w3 (accesses this l).
Proof.
  revert this. induction l as [| a l IH]; intros this Hinv; [assumption |].
  rewrite accesses_cons. now apply IH, access_memo_invariant.
Qed.

Lemma access_keeps_web3_modules this (a : Access) :
  (forall k, _keys this = Some k -> _keys (access this a) = Some k) /\
  (forall o, _onboarding this = Some o ->
             _onboarding (access this a) = Some o) /\
  (forall e, _eth this = Some e -> _eth (access this a) = Some e).
Proof.
  destruct a; unfold access, private, keys, onboarding, eth.
  - destruct (_private this); [now repeat split |].
    destruct (apiPrivateKey this) as [key |]; [| now repeat split].
    destruct (key_truthy key); [| now repeat split].
    destruct Private.new; now repeat split.
  - destruct (_keys this) eqn:Hmemo; simpl.
    + rewrite Hmemo. now repeat split.
    + destruct (web3 this); simpl; [| rewrite Hmemo]; now repeat split.
  - destruct (_onboarding this) eqn:Hmemo; simpl.
    + rewrite Hmemo. now repeat split.
    + destruct (web3 this); simpl; [| rewrite Hmemo]; now repeat split.
  - destruct (_eth this) eqn:Hmemo; simpl.
    + rewrite Hmemo. now repeat split.
    + destruct (web3 this); simpl; [| rewrite Hmemo]; now repeat split.
Qed.

Lemma accesses_keep_web3_modules this l :
  (forall k, _keys this = Some k -> _keys (accesses this l) = Some k) /\
  (forall o, _onboarding this = Some o ->
             _onboarding (accesses this l) = Some o) /\
  (forall e, _eth this = Some e -> _eth (accesses this l) = Some e).
Proof.
  revert this. induction l as [| a l IH]; intros this; [now repeat split |].
  rewrite accesses_cons.
  destruct (IH (access this a)) as (Hk & Ho & He).
  destruct (access_keeps_web3_modules this a) as (Hk' & Ho' & He').
  repeat split; intros m Hm; [apply Hk, Hk' | apply Ho, Ho' | apply He, He'];
    exact Hm.
Qed.

(** X16. At any point of the life of a client, [keys], [onboarding] and
    [eth] answer with the module built over the host of the client and the
    single [web3] instance of the constructor, and the access stores that
    module in the client.  A stored module is what the getter returns from
    then on, whichever module it is, with the client left untouched: it is
    neither rebuilt nor replaced by any later access. *)
Theorem web3_modules_are_built_once (h : string) (options : ClientOptions)
    l :
  let this := accesses (new h options) l in
  let w3 := mkWeb3 (opt_web3Provider options) in
  (fst (keys this) = Module_ (mkKeys h w3) /\
   _keys (snd (keys this)) = Some (mkKeys h w3)) /\
  (fst (onboarding this) = Module_ (mkOnboarding h w3) /\
   _onboarding (snd (onboarding this)) = Some (mkOnboarding h w3)) /\
  (fst (eth this) = Module_ (mkEth w3) /\
   _eth (snd (eth this)) = Some (mkEth w3)) /\
  (forall (client : t) (stored : Keys) l',
      _keys client = Some stored ->
      keys (accesses client l') = (Module_ stored, accesses client l')) /\
  (forall (client : t) (stored : Onboarding) l',
      _onboarding client = Some stored ->
      onboarding (accesses client l') =
        (Module_ stored, accesses client l')) /\
  (forall (client : t) (stored : Eth) l',
      _eth client = Some stored ->
      eth (accesses client l') = (Module_ stored, accesses client l')).
Proof.
  cbv zeta.
  destruct (accesses_memo_invariant h (mkWeb3 (opt_web3Provider options))
              (new h options) l) as (Hh & Hw & Hk & Ho & He).
  { unfold memo_invariant. simpl. repeat split; now left. }
  split; [| split; [| split; [| split; [| split]]]].
  - unfold keys. rewrite Hw, Hh. destruct Hk as [-> | Hk]; simpl;
      [now split | now rewrite Hk].
  - unfold onboarding. rewrite Hw, Hh. destruct Ho as [-> | Ho]; simpl;
      [now split | now rewrite Ho].
  - unfold eth. rewrite Hw. destruct He as [-> | He]; simpl;
      [now split | now rewrite He].
  - intros client stored l' Hstored. unfold keys.
    now rewrite (proj1 (accesses_keep_web3_modules client l') _ Hstored).
  - intros client stored l' Hstored. unfold onboarding.
    now rewrite (proj1 (proj2 (accesses_keep_web3_modules client l')) _
                   Hstored).
  - intros client stored l' Hstored. unfold eth.
    now rewrite (proj2 (proj2 (accesses_keep_web3_modules client l')) _
                   Hstored).
Qed.

Lemma access_keeps_private this (a : Access) (p : Private.t) :
  _private this = Some p -> _private (access this a) = Some p.
Proof.
  intros Hp. destruct a; unfold access, private, keys, onboarding, eth.
  - now rewrite Hp.
  - destruct (_keys this); [assumption |]. now destruct (web3 this).
  - destruct (_onboarding this); [assumption |]. now destruct (web3 this).
  - destruct (_eth this); [assumption |]. now destruct (web3 this).
Qed.

Lemma accesses_keeps_private this l (p : Private.t) :
  _private this = Some p -> _private (accesses this l) = Some p.
Proof.
  revert this. induction l as [| a l IH]; intros this Hp; [assumption |].
  rewrite accesses_cons. now apply IH, access_keeps_private.
Qed.

(** X17. What [private] answered once, it answers for the rest of the life
    of the client.  A module it answered with is stored in the client, and
    a stored module, whichever it is, is what the getter returns from then
    on, with the client left untouched: it is neither rebuilt from the keys
    nor replaced by any later access.  After the stub nothing is stored. *)
Theorem private_answer_is_final this this' (answer : Gated Private.t) l :
  private this = Ok (answer, this') ->
  private (accesses this' l) = Ok (answer, accesses this' l) /\
  match answer with
  | Module_ p => _private this' = Some p
  | NotSupported => _private this' = None
  end /\
  (forall (client : t) (stored : Private.t) l',
      _private client = Some stored ->
      private (accesses client l') =
        Ok (Module_ stored, accesses client l')).
Proof.
  assert (Hstored : forall (client : t) (stored : Private.t) l',
    _private client = Some stored ->
    private (accesses client l') = Ok (Module_ stored, accesses client l')).
  { intros client stored l' Hmemo. unfold private.
    now rewrite (accesses_keeps_private client l' stored Hmemo). }
  unfold private at 1.
  destruct (_private this) as [p |] eqn:Hmemo.
  - intros [= <- <-]. split; [now apply Hstored |]. now split.
  - destruct (apiPrivateKey this) as [key |] eqn:Hkey.
    + destruct (key_truthy key) eqn:Htruthy.
      * destruct Private.new as [p |]; [| discriminate].
        intros [= <- <-]. split; [now apply Hstored |]. now split.
      * intros [= <- <-].
        assert (Hno : no_api_key this)
          by (unfold no_api_key; now rewrite Hkey).
        split; [| now split]. unfold private.
        rewrite (accesses_private_unset this l Hno Hmemo).
        destruct (accesses_credentials this l) as [-> _].
        now rewrite Hkey, Htruthy.
    + intros [= <- <-].
      assert (Hno : no_api_key this)
        by (unfold no_api_key; now rewrite Hkey).
      split; [| now split]. unfold private.
      rewrite (accesses_private_unset this l Hno Hmemo).
      destruct (accesses_credentials this l) as [-> _].
      now rewrite Hkey.
Qed.

(** X18. The trading module a fresh client hands out is the [Private]
    constructed from the host of the client, its API private key, which is
    then non-empty, and its stark private key. *)
Theorem private_module_is_built_from_the_options (h : string)
    (options : ClientOptions) (p : Private.t) this' :
  private (new h options) = Ok (Module_ p, this') ->
  exists key,
    opt_apiPrivateKey options = Some key /\ key_truthy key = true /\
    Private.new h key (opt_starkPrivateKey options) = Ok p /\
    Private.host p = h /\
    this' = set_private (new h options) p.
Proof.
  unfold private. simpl.
  destruct (opt_apiPrivateKey options) as [key |]; [| discriminate].
  destruct (key_truthy key) eqn:Htruthy; [| discriminate].
  destruct (Private.new h key (opt_starkPrivateKey options)) as [q |]
    eqn:Hnew; [| discriminate].
  intros [= <- <-]. exists key. repeat split; try assumption.
  unfold Private.new in Hnew.
  destruct (asKeyPair key); [| discriminate].
  destruct (opt_starkPrivateKey options) as [k |].
  - destruct (key_truthy k); [destruct (asKeyPair k) |];
      try discriminate; now injection Hnew as <-.
  - now injection Hnew as <-.
Qed.

(** X19. A client constructed without API private key, or with the empty
    string, answers every access of [private] with the stub, at any point
    of its life, and the access leaves the client as it is. *)
Theorem private_without_api_key_stays_stub (h : string)
    (options : ClientOptions) l :
  no_api_key (new h options) ->
  let this := accesses (new h options) l in
  private this = Ok (NotSupported, this) /\ _private this = None.
Proof.
  intros Hkey this.
  assert (Hnone : _private this = None)
    by now apply accesses_private_unset.
  split; [| assumption].
  unfold private. rewrite Hnone. unfold this.
  destruct (accesses_credentials (new h options) l) as [-> _].
  unfold no_api_key in Hkey.
  destruct (apiPrivateKey (new h options)) as [key |]; [| reflexivity].
  now rewrite Hkey.
Qed.

(** X20. Through the facade: the trading module of a client constructed
    with an API private key but without stark private key (or with the
    empty string) refuses an order or a withdrawal whose params omit
    [signature], before signing or sending anything. *)
Theorem facade_without_stark_key_refuses_unsigned (h : string)
    (options : ClientOptions) (p : Private.t) this'
    (params : JsObject) (positionId : string) (w : World) :
  private (new h options) = Ok (Module_ p, this') ->
  match opt_starkPrivateKey options with
  | Some key => key_truthy key = false
  | None => True
  end ->
  params !! "signature" = None ->
  (fst (Private.createOrder p params positionId w) =
     Throw (Error "Order is not signed and client was not initialized with starkPrivateKey") /\
   trace (snd (Private.createOrder p params positionId w)) = trace w) /\
  (fst (Private.createWithdrawal p params positionId w) =
     Throw (Error "Withdrawal is not signed and client was not initialized with starkPrivateKey") /\
   trace (snd (Private.createWithdrawal p params positionId w)) = trace w).
Proof.
  intros Hprivate Hstark Hsig.
  assert (Hnone : Private.starkKeyPair p = None).
  { revert Hprivate. unfold private. simpl.
    destruct (opt_apiPrivateKey options) as [key |]; [| discriminate].
    destruct (key_truthy key); [| discriminate].
    unfold Private.new. destruct (asKeyPair key); [| discriminate].
    destruct (opt_starkPrivateKey options) as [k |].
    - rewrite Hstark. now intros [= <- _].
    - now intros [= <- _]. }
  rewrite createOrder_run, createWithdrawal_run. cbv zeta.
  rewrite (get_omitted _ _ Hsig), Hnone. simpl.
  rewrite after_clientId_trace. now repeat split.
Qed.

End Lifetime.

(** ** Further concrete runs *)

Section MoreRuns.
Import Sample DydxClient.
#[local] Existing Instance collaborators.

Lemma outcome_is_transport_outcome_witness :
  fst (perform trader (CreateOrder order "7") (world x042)) =
    axiosRequest
      (posted "orders"
         (Private.signedPayload order (JsString "42")
            (JsString "order-signed-by-stark-secret"))).
Proof.
  apply (outcome_is_transport_outcome trader (CreateOrder order "7")
           (world x042)).
  vm_compute. right. right. left. reflexivity.
Defined.

Lemma sent_request_matches_signed_envelope_witness :
  exists env signature,
    In (ApiRequestSign env "api-secret")
       (emitted (perform trader (GetOrders order)) (world x042)) /\
    signed_as_sent "https://api.dydx.exchange" env
      (Private.axiosConfig trader GET
         ("/v3/" ++ generateQueryPath "orders" order) None timestamp
         "request-signed-by-api-secret") /\
    expiresAt env = timestamp /\
    apiPublicKey env = "api-public" /\
    ApiRequest_sign env "api-secret" = Ok signature /\
    headers
      (Private.axiosConfig trader GET
         ("/v3/" ++ generateQueryPath "orders" order) None timestamp
         "request-signed-by-api-secret") !! "DYDX-SIGNATURE" =
      Some signature.
Proof.
  apply (sent_request_matches_signed_envelope trader (GetOrders order)
           (world x042)).
  vm_compute. right. left. reflexivity.
Defined.

Lemma body_only_with_post_and_put_witness :
  (data (Private.axiosConfig trader DELETE
           ("/v3/" ++ generateQueryPath "orders/17" ∅) None timestamp
           "request-signed-by-api-secret") = None <->
   DELETE = GET \/ DELETE = DELETE) /\
  (is_query (CancelOrder "17") = true -> DELETE = GET).
Proof.
  apply (body_only_with_post_and_put trader (CancelOrder "17")
           (world x042)
           (Private.axiosConfig trader DELETE
              ("/v3/" ++ generateQueryPath "orders/17" ∅) None timestamp
              "request-signed-by-api-secret")).
  vm_compute. right. left. reflexivity.
Defined.

Lemma api_signing_failure_sends_nothing_witness :
  fst (@perform without_api_signer trader GetUser (world x042)) =
    Throw (Error "invalid API key") /\
  transport_calls
    (emitted (@perform without_api_signer trader GetUser) (world x042)) = 0.
Proof.
  apply (@api_signing_failure_sends_nothing without_api_signer trader
           GetUser (world x042)
           (@Private.envelope without_api_signer trader "/v3/users" GET
              timestamp None)
           "api-secret").
  - vm_compute. left. reflexivity.
  - reflexivity.
Defined.

Lemma stark_signing_failure_sends_nothing_witness :
  fst (@Private.createOrder without_stark_signer trader order "7"
         (world x042)) = Throw (Error "invalid stark key") /\
  emitted (@Private.createOrder without_stark_signer trader order "7")
    (world x042) =
    [StarkOrderSign
       (Private.orderToSign order (JsString "42") "7" starkKeys) starkKeys].
Proof.
  apply (proj1 (@stark_signing_failure_sends_nothing without_stark_signer
                  trader order "7" (world x042) starkKeys eq_refl eq_refl)).
  reflexivity.
Defined.

Lemma complete_params_are_posted_as_they_are_witness :
  stark_signatures
    (emitted (Private.createOrder trader complete_order "7") (world x042)) =
    0 /\
  random_calls (snd (Private.createOrder trader complete_order "7"
                       (world x042))) = 0.
Proof.
  destruct (complete_params_are_posted_as_they_are trader complete_order
              "7" (world x042) (JsString "1234") (JsString "0a1b2c"))
    as (_ & _ & Hstark & _ & Hrandom & _);
    try (vm_compute; reflexivity).
  split; assumption.
Defined.


Lemma constructed_private_holds_derived_keys_witness :
  Private.host api_only_module = "https://api.dydx.exchange" /\
  asKeyPair (KeyString "api-secret") =
    Ok (Private.apiKeyPair api_only_module) /\
  (Some (KeyString "") = None \/
   exists key, Some (KeyString "") = Some key /\ key_truthy key = false).
Proof.
  apply (constructed_private_holds_derived_keys "https://api.dydx.exchange"
           (KeyString "api-secret") (Some (KeyString "")) api_only_module).
  reflexivity.
Defined.

Lemma private_answer_is_final_witness :
  private
    (accesses
       (set_private (new "https://api.dydx.exchange" api_only)
          api_only_module)
       [AccessKeys; AccessPrivate; AccessEth]) =
    Ok (Module_ api_only_module,
        accesses
          (set_private (new "https://api.dydx.exchange" api_only)
             api_only_module)
          [AccessKeys; AccessPrivate; AccessEth]).
Proof.
  apply (private_answer_is_final (new "https://api.dydx.exchange" api_only)).
  reflexivity.
Defined.

Lemma private_module_is_built_from_the_options_witness :
  exists key,
    opt_apiPrivateKey api_only = Some key /\ key_truthy key = true /\
    Private.new "https://api.dydx.exchange" key
      (opt_starkPrivateKey api_only) = Ok api_only_module /\
    Private.host api_only_module = "https://api.dydx.exchange" /\
    set_private (new "https://api.dydx.exchange" api_only) api_only_module =
      set_private (new "https://api.dydx.exchange" api_only)
        api_only_module.
Proof.
  apply (private_module_is_built_from_the_options
           "https://api.dydx.exchange" api_only api_only_module).
  reflexivity.
Defined.

Lemma private_without_api_key_stays_stub_witness :
  private
    (accesses (new "https://api.dydx.exchange" no_keys)
       [AccessPrivate; AccessKeys]) =
    Ok (NotSupported,
        accesses (new "https://api.dydx.exchange" no_keys)
          [AccessPrivate; AccessKeys]).
Proof.
  apply (private_without_api_key_stays_stub "https://api.dydx.exchange"
           no_keys [AccessPrivate; AccessKeys]).
  exact I.
Defined.

Lemma facade_without_stark_key_refuses_unsigned_witness :
  fst (Private.createOrder api_only_module order "7" (world x042)) =
    Throw (Error "Order is not signed and client was not initialized with starkPrivateKey") /\
  trace (snd (Private.createOrder api_only_module order "7" (world x042))) =
    [].
Proof.
  apply (facade_without_stark_key_refuses_unsigned
           "https://api.dydx.exchange" api_only api_only_module
           (set_private (new "https://api.dydx.exchange" api_only)
              api_only_module)
           order "7" (world x042)).
  - reflexivity.
  - exact I.
  - vm_compute. reflexivity.
Defined.

End MoreRuns.
